(** * Transaction serialization (viem, [utils/transaction/serializeTransaction.ts])

    A shallow embedding of the four variant encoders, of the shared
    signature tail encoder and of the dispatcher, followed by the
    properties the specification states about them.

    Conventions of the embedding.
    - A JavaScript [number] or [bigint] that holds an integer is a [Z];
      a property that may be [undefined] is an [option].
    - A thrown exception is the [Throw] outcome of the [Result] monad;
      statements are sequenced in source order, so the first exception
      wins, as in the source.
    - The functions this file imports from the rest of the library
      ([toHex], [toRlp], [concatHex], [trim], [serializeAccessList], the
      four [assertTransaction...] and [getTransactionType]) are the fields
      of the class [Collaborators]; every theorem holds for all of them. *)

From Stdlib Require Import ZArith List String Ascii HexString Bool Lia.
Import ListNotations.
Set Warnings "-register-all".
Local Open Scope string_scope.
Local Open Scope list_scope.
Local Open Scope Z_scope.

(** ** Values *)

(** [Hex] is the template type [`0x${string}`]. *)
Definition Hex := string.

(** A property typed [T | null | undefined] (the recipient [to]). *)
Inductive Nullable (A : Type) : Type :=
| Undefined
| Null
| Value (a : A).
Arguments Undefined {A}.
Arguments Null {A}.
Arguments Value {A} a.

(** [x ?? d]: the default replaces [null] and [undefined] only. *)
Definition nullish {A} (x : Nullable A) (d : A) : A :=
  match x with
  | Value a => a
  | Undefined | Null => d
  end.

(** [x ?? d] on a property that is never [null]. *)
Definition nullishOpt {A} (x : option A) (d : A) : A :=
  match x with
  | Some a => a
  | None => d
  end.

(** Truthiness of a [number | bigint | undefined]: [undefined], [0] and
    [0n] are falsy. *)
Definition truthy (x : option Z) : bool :=
  match x with
  | Some n => negb (n =? 0)
  | None => false
  end.

(** Truthiness of an object reference ([blobs], [signature]): only
    [undefined] is falsy, an empty array is truthy. *)
Definition defined {A} (x : option A) : bool :=
  match x with
  | Some _ => true
  | None => false
  end.

(** What is handed to [toRlp]: [RecursiveArray<Hex>].  A property the
    types require but the object lacks reaches the array as [undefined]. *)
Inductive RecursiveArray : Type :=
| RHex (h : Hex)
| RUndefined
| RArray (l : list RecursiveArray).

Definition ofHex (x : option Hex) : RecursiveArray :=
  match x with
  | Some h => RHex h
  | None => RUndefined
  end.

Definition ofHexArray (x : option (list Hex)) : RecursiveArray :=
  match x with
  | Some l => RArray (map RHex l)
  | None => RUndefined
  end.

(** [types/transaction.ts]: [AccessList]. *)
Record AccessListItem : Type := {
  address : Hex;
  storageKeys : list Hex
}.
Definition AccessList := list AccessListItem.

(** The value of a [yParity] property: the record types say [number],
    the signature argument of [toYParitySignatureArray] says [Hex]. *)
Inductive YParity : Type :=
| YNumber (n : Z)
| YHex (h : Hex).

(** The four properties [toYParitySignatureArray] destructures, as they
    are at run time: each may be [undefined]. *)
Record Signature : Type := {
  r : option Hex;
  s : option Hex;
  v : option Z;
  yParity : option YParity
}.

(** [TransactionSerializableGeneric] with the blob sidecar properties of
    the EIP-4844 variant: the object the dispatcher receives and passes
    on, unchanged, to the encoder it selects.  [Partial<Signature>] and
    [yParity] are the component [ownSignature]. *)
Record TransactionSerializable : Type := {
  type : option string;
  chainId : option Z;
  nonce : option Z;
  gas : option Z;
  gasPrice : option Z;
  maxFeePerGas : option Z;
  maxPriorityFeePerGas : option Z;
  maxFeePerBlobGas : option Z;
  to : Nullable Hex;
  value : option Z;
  data : option Hex;
  accessList : option AccessList;
  blobVersionedHashes : option (list Hex);
  blobs : option (list Hex);
  kzgCommitments : option (list Hex);
  kzgProofs : option (list Hex);
  ownSignature : Signature
}.

(** ** Exceptions *)

(** An exception thrown by an imported function, by name. *)
Definition CollaboratorError := string.

(** [InvalidLegacyVError] is the one error this file constructs; it
    carries [signature.v] as it was read.  [TypeError] is what the
    engine throws on [35n + undefined]. *)
Inductive Error : Type :=
| InvalidLegacyVError (v : option Z)
| TypeError
| External (e : CollaboratorError).

Inductive Result (A : Type) : Type :=
| Ok (a : A)
| Throw (e : Error).
Arguments Ok {A} a.
Arguments Throw {A} e.

Definition bind {A B} (m : Result A) (k : A -> Result B) : Result B :=
  match m with
  | Ok a => k a
  | Throw e => Throw e
  end.

Notation "x <- m ;; k" := (bind m (fun x => k))
  (at level 61, m at next level, right associativity).
Notation "m ;;; k" := (bind m (fun _ => k))
  (at level 61, right associativity).

(** The outcome of calling an imported function. *)
Inductive Outcome (A : Type) : Type :=
| Returned (a : A)
| Raised (e : CollaboratorError).
Arguments Returned {A} a.
Arguments Raised {A} e.

Definition call {A} (o : Outcome A) : Result A :=
  match o with
  | Returned a => Ok a
  | Raised e => Throw (External e)
  end.

(** ** The imported functions

    Each is taken as it is called here.  Those whose error type the
    source lists may raise; [concatHex] and [trim] join and cut
    strings and always return. *)

Class Collaborators : Type := {
  (** [toHex(value)] at a [number], a [bigint] or [undefined] *)
  toHex : option Z -> Outcome Hex;
  toRlp : RecursiveArray -> Outcome Hex;
  concatHex : list Hex -> Hex;
  trim : Hex -> Hex;
  serializeAccessList : option AccessList -> Outcome RecursiveArray;
  assertTransactionEIP1559 : TransactionSerializable -> Outcome unit;
  assertTransactionEIP2930 : TransactionSerializable -> Outcome unit;
  assertTransactionEIP4844 : TransactionSerializable -> Outcome unit;
  assertTransactionLegacy : TransactionSerializable -> Outcome unit;
  getTransactionType : TransactionSerializable -> Outcome string
}.

(** ** The encoders *)

Section Encoders.

Context {C : Collaborators}.

(** [x ? toHex(x) : '0x'] *)
Definition toHexOrEmpty (x : option Z) : Result Hex :=
  if truthy x then call (toHex x) else Ok "0x".

(** [x === n] for a [bigint | undefined] against a literal. *)
Definition strictEq (x : option Z) (n : Z) : bool :=
  match x with
  | Some z => z =? n
  | None => false
  end.

(** [toYParitySignatureArray], lines 308-325.  The three [typeof]
    tests return early; the inner function computes [yParity_]. *)
Definition toYParitySignatureArray
    (transaction : TransactionSerializable) (signature : option Signature)
  : Result (list RecursiveArray) :=
  let sg := nullishOpt signature (ownSignature transaction) in
  match r sg with
  | None => Ok []
  | Some r_ =>
    match s sg with
    | None => Ok []
    | Some s_ =>
      if negb (defined (v sg)) && negb (defined (yParity sg)) then Ok []
      else
        yParity_ <-
          match yParity sg with
          | Some (YNumber n) => call (toHex (Some n))
          | _ =>
            if strictEq (v sg) 0 then Ok "0x"
            else if strictEq (v sg) 1 then call (toHex (Some 1))
            else if strictEq (v sg) 27 then Ok "0x"
            else call (toHex (Some 1))
          end ;;
        Ok [RHex yParity_; RHex (trim r_); RHex (trim s_)]
    end
  end.

(** The array literal of [serializeTransactionEIP4844], lines 138-151;
    [serializedAccessList] was computed before it. *)
Definition serializedTransactionEIP4844
    (transaction : TransactionSerializable)
    (serializedAccessList : RecursiveArray) (signature : option Signature)
  : Result (list RecursiveArray) :=
  chainId_ <- call (toHex (chainId transaction)) ;;
  nonce_ <- toHexOrEmpty (nonce transaction) ;;
  maxPriorityFeePerGas_ <- toHexOrEmpty (maxPriorityFeePerGas transaction) ;;
  maxFeePerGas_ <- toHexOrEmpty (maxFeePerGas transaction) ;;
  gas_ <- toHexOrEmpty (gas transaction) ;;
  value_ <- toHexOrEmpty (value transaction) ;;
  maxFeePerBlobGas_ <- toHexOrEmpty (maxFeePerBlobGas transaction) ;;
  tail <- toYParitySignatureArray transaction signature ;;
  Ok ([ RHex chainId_;
        RHex nonce_;
        RHex maxPriorityFeePerGas_;
        RHex maxFeePerGas_;
        RHex gas_;
        RHex (nullish (to transaction) "0x");
        RHex value_;
        RHex (nullishOpt (data transaction) "0x");
        serializedAccessList;
        RHex maxFeePerBlobGas_;
        ofHexArray (blobVersionedHashes transaction) ] ++ tail).

(** [serializeTransactionEIP4844], lines 113-159. *)
Definition serializeTransactionEIP4844
    (transaction : TransactionSerializable) (signature : option Signature)
  : Result Hex :=
  call (assertTransactionEIP4844 transaction) ;;;
  serializedAccessList <- call (serializeAccessList (accessList transaction)) ;;
  serializedTransaction <-
    serializedTransactionEIP4844 transaction serializedAccessList signature ;;
  rlp <-
    (if defined (blobs transaction)
     then call (toRlp (RArray [ RArray serializedTransaction;
                                ofHexArray (blobs transaction);
                                ofHexArray (kzgCommitments transaction);
                                ofHexArray (kzgProofs transaction) ]))
     else call (toRlp (RArray serializedTransaction))) ;;
  Ok (concatHex ["0x03"; rlp]).

(** The array literal of [serializeTransactionEIP1559], lines 190-201. *)
Definition serializedTransactionEIP1559
    (transaction : TransactionSerializable)
    (serializedAccessList : RecursiveArray) (signature : option Signature)
  : Result (list RecursiveArray) :=
  chainId_ <- call (toHex (chainId transaction)) ;;
  nonce_ <- toHexOrEmpty (nonce transaction) ;;
  maxPriorityFeePerGas_ <- toHexOrEmpty (maxPriorityFeePerGas transaction) ;;
  maxFeePerGas_ <- toHexOrEmpty (maxFeePerGas transaction) ;;
  gas_ <- toHexOrEmpty (gas transaction) ;;
  value_ <- toHexOrEmpty (value transaction) ;;
  tail <- toYParitySignatureArray transaction signature ;;
  Ok ([ RHex chainId_;
        RHex nonce_;
        RHex maxPriorityFeePerGas_;
        RHex maxFeePerGas_;
        RHex gas_;
        RHex (nullish (to transaction) "0x");
        RHex value_;
        RHex (nullishOpt (data transaction) "0x");
        serializedAccessList ] ++ tail).

(** [serializeTransactionEIP1559], lines 170-207. *)
Definition serializeTransactionEIP1559
    (transaction : TransactionSerializable) (signature : option Signature)
  : Result Hex :=
  call (assertTransactionEIP1559 transaction) ;;;
  serializedAccessList <- call (serializeAccessList (accessList transaction)) ;;
  serializedTransaction <-
    serializedTransactionEIP1559 transaction serializedAccessList signature ;;
  rlp <- call (toRlp (RArray serializedTransaction)) ;;
  Ok (concatHex ["0x02"; rlp]).

(** The array literal of [serializeTransactionEIP2930], lines 229-239. *)
Definition serializedTransactionEIP2930
    (transaction : TransactionSerializable)
    (serializedAccessList : RecursiveArray) (signature : option Signature)
  : Result (list RecursiveArray) :=
  chainId_ <- call (toHex (chainId transaction)) ;;
  nonce_ <- toHexOrEmpty (nonce transaction) ;;
  gasPrice_ <- toHexOrEmpty (gasPrice transaction) ;;
  gas_ <- toHexOrEmpty (gas transaction) ;;
  value_ <- toHexOrEmpty (value transaction) ;;
  tail <- toYParitySignatureArray transaction signature ;;
  Ok ([ RHex chainId_;
        RHex nonce_;
        RHex gasPrice_;
        RHex gas_;
        RHex (nullish (to transaction) "0x");
        RHex value_;
        RHex (nullishOpt (data transaction) "0x");
        serializedAccessList ] ++ tail).

(** [serializeTransactionEIP2930], lines 218-245. *)
Definition serializeTransactionEIP2930
    (transaction : TransactionSerializable) (signature : option Signature)
  : Result Hex :=
  call (assertTransactionEIP2930 transaction) ;;;
  serializedAccessList <- call (serializeAccessList (accessList transaction)) ;;
  serializedTransaction <-
    serializedTransactionEIP2930 transaction serializedAccessList signature ;;
  rlp <- call (toRlp (RArray serializedTransaction)) ;;
  Ok (concatHex ["0x01"; rlp]).

(** The first array literal of [serializeTransactionLegacy], lines
    262-269: the six base fields. *)
Definition serializedTransactionLegacy
    (transaction : TransactionSerializable) : Result (list RecursiveArray) :=
  nonce_ <- toHexOrEmpty (nonce transaction) ;;
  gasPrice_ <- toHexOrEmpty (gasPrice transaction) ;;
  gas_ <- toHexOrEmpty (gas transaction) ;;
  value_ <- toHexOrEmpty (value transaction) ;;
  Ok [ RHex nonce_;
       RHex gasPrice_;
       RHex gas_;
       RHex (nullish (to transaction) "0x");
       RHex value_;
       RHex (nullishOpt (data transaction) "0x") ].

(** The function that computes [v], lines 272-288.  [chainId_] is the
    destructured [chainId = 0].  With [signature.v] undefined,
    [35n + signature.v] is a [TypeError], [signature.v >= 35n] and
    [signature.v === 27n] are false and [signature.v !== 28n] is true. *)
Definition legacyV (chainId_ : Z) (signature : Signature) : Result Z :=
  if 0 <? chainId_ then
    match v signature with
    | Some sv => Ok (chainId_ * 2 + (35 + sv - 27))
    | None => Throw TypeError
    end
  else
    match v signature with
    | Some sv =>
      if 35 <=? sv then
        let inferredChainId := Z.quot (sv - 35) 2 in
        if 0 <? inferredChainId then Ok sv
        else Ok (27 + (if sv =? 35 then 0 else 1))
      else
        let v_ := 27 + (if sv =? 27 then 0 else 1) in
        if negb (sv =? v_) then Throw (InvalidLegacyVError (Some sv))
        else Ok v_
    | None => Throw (InvalidLegacyVError None)
    end.

(** [serializeTransactionLegacy], lines 254-306. *)
Definition serializeTransactionLegacy
    (transaction : TransactionSerializable) (signature : option Signature)
  : Result Hex :=
  let chainId_ := nullishOpt (chainId transaction) 0 in
  call (assertTransactionLegacy transaction) ;;;
  base <- serializedTransactionLegacy transaction ;;
  serializedTransaction <-
    match signature with
    | Some sg =>
      v_ <- legacyV chainId_ sg ;;
      hv <- call (toHex (Some v_)) ;;
      Ok (base ++ [RHex hv; ofHex (r sg); ofHex (s sg)])
    | None =>
      if 0 <? chainId_ then
        hc <- call (toHex (Some chainId_)) ;;
        Ok (base ++ [RHex hc; RHex "0x"; RHex "0x"])
      else Ok base
    end ;;
  call (toRlp (RArray serializedTransaction)).

(** [serializeTransaction], lines 70-102. *)
Definition serializeTransaction
    (transaction : TransactionSerializable) (signature : option Signature)
  : Result Hex :=
  type_ <- call (getTransactionType transaction) ;;
  if (type_ =? "eip1559")%string then
    serializeTransactionEIP1559 transaction signature
  else if (type_ =? "eip2930")%string then
    serializeTransactionEIP2930 transaction signature
  else if (type_ =? "eip4844")%string then
    serializeTransactionEIP4844 transaction signature
  else serializeTransactionLegacy transaction signature.

End Encoders.

(** ** A reference implementation of the imported functions

    The imported functions are not part of the verified file.  The
    instance below follows the contracts the specification gives for
    them; it is used to run the encoders on concrete records. *)

Module Reference.

Local Open Scope string_scope.
Local Open Scope Z_scope.

(** Hex digits of a positive number, padded to whole bytes. *)
Definition evenDigits (d : string) : string :=
  if Nat.even (String.length d) then d else "0" ++ d.

Definition digitsOfN (n : N) : string :=
  match n with
  | N0 => ""
  | Npos p => evenDigits (HexString.Raw.of_pos p "")
  end.

(** One byte as two hex digits. *)
Definition byteDigits (n : N) : string :=
  match n with
  | N0 => "00"
  | Npos p => evenDigits (HexString.Raw.of_pos p "")
  end.

(** Modelled from the spec: [toHex] is missing from the sources; section
    6 describes it as converting an unsigned integer to its minimal
    big-endian hex byte representation, with no leading zero bytes and
    zero encoded as the empty placeholder.  A negative number or
    [undefined] is rejected. *)
Definition toHex (x : option Z) : Outcome Hex :=
  match x with
  | None => Raised "toHex: not a number"
  | Some z =>
    if z <? 0 then Raised "IntegerOutOfRangeError"
    else Returned ("0x" ++ digitsOfN (Z.to_N z))
  end.

Fixpoint stripZeroBytes (d : string) : string :=
  match d with
  | String "0" (String "0" rest) => stripZeroBytes rest
  | _ => d
  end.

(** The digits after the [0x] prefix; a string without the prefix is
    taken as it is. *)
Definition digitsOf (h : Hex) : string :=
  match h with
  | String "0" (String "x" d) => d
  | _ => h
  end.

(** Modelled from the spec: [trim] is missing from the sources; section
    6 describes it as stripping the leading zero bytes of a fixed-width
    byte value. *)
Definition trim (h : Hex) : Hex := "0x" ++ stripZeroBytes (digitsOf h).

(** Modelled from the spec: [concatHex] is missing from the sources;
    sections 4.4 to 4.6 use it to prepend the marker byte to the
    encoding: the byte strings are joined under one prefix. *)
Definition concatHex (l : list Hex) : Hex :=
  "0x" ++ String.concat "" (map digitsOf l).

Fixpoint allHexDigits (d : string) : bool :=
  match d with
  | EmptyString => true
  | String c rest =>
    match HexString.ascii_to_digit c with
    | Some _ => allHexDigits rest
    | None => false
    end
  end.

Definition byteLength (d : string) : N := N.of_nat (String.length d / 2).

(** The length prefix of the array encoding: [short] is the marker of a
    payload of fewer than 56 bytes ([0x80] for a byte string, [0xc0] for
    a list). *)
Definition lengthPrefix (short : N) (len : N) : string :=
  if (len <? 56)%N then byteDigits (short + len)
  else
    let l := digitsOfN len in
    byteDigits (short + 55 + byteLength l) ++ l.

Definition encodeBytes (d : string) : string :=
  match d with
  | String c (String _ EmptyString) =>
    match HexString.ascii_to_digit c with
    | Some n => if (n <? 8)%N then d else lengthPrefix 128 1 ++ d
    | None => d
    end
  | _ => lengthPrefix 128 (byteLength d) ++ d
  end.

Fixpoint encode (x : RecursiveArray) : Outcome string :=
  match x with
  | RHex h =>
    match h with
    | String "0" (String "x" d) =>
      if allHexDigits d then Returned (encodeBytes (evenDigits d))
      else Raised "InvalidHexValueError"
    | _ => Raised "InvalidHexValueError"
    end
  | RUndefined => Raised "toRlp: undefined"
  | RArray l =>
    let fix items (l : list RecursiveArray) : Outcome string :=
      match l with
      | [] => Returned ""
      | y :: ys =>
        match encode y with
        | Returned e =>
          match items ys with
          | Returned es => Returned (e ++ es)
          | Raised err => Raised err
          end
        | Raised err => Raised err
        end
      end in
    match items l with
    | Returned payload =>
      Returned (lengthPrefix 192 (byteLength payload) ++ payload)
    | Raised err => Raised err
    end
  end.

(** Modelled from the spec: [toRlp] is missing from the sources; section
    6 describes it as the length-prefixed encoding of an ordered
    sequence whose elements are byte strings or nested sequences. *)
Definition toRlp (x : RecursiveArray) : Outcome Hex :=
  match encode x with
  | Returned d => Returned ("0x" ++ d)
  | Raised err => Raised err
  end.

(** Modelled from the spec: [serializeAccessList] is missing from the
    sources; section 3 gives the access list as an ordered sequence of
    an address with an ordered sequence of storage keys, which section
    6 says is encoded as nested lists. *)
Definition serializeAccessList (l : option AccessList) : Outcome RecursiveArray :=
  Returned (RArray (map (fun item =>
                           RArray [ RHex (address item);
                                    RArray (map RHex (storageKeys item)) ])
                        (nullishOpt l []))).

Definition maxUint256 : Z := 2 ^ 256 - 1.

Definition inRange (x : option Z) : bool :=
  match x with
  | Some n => (0 <=? n) && (n <=? maxUint256)
  | None => true
  end.

(** Modelled from the spec: the four assertions are missing from the
    sources; section 6 describes them as validating the numeric ranges
    and the presence of the required fields of a variant, failing with
    a validation error tagged by the variant. *)
Definition assertTransactionLegacy (t : TransactionSerializable) : Outcome unit :=
  if inRange (gasPrice t) then Returned tt
  else Raised "legacy: FeeCapTooHighError".

Definition assertTransactionEIP2930 (t : TransactionSerializable) : Outcome unit :=
  if negb (defined (chainId t)) then Raised "eip2930: InvalidChainIdError"
  else if inRange (gasPrice t) then Returned tt
  else Raised "eip2930: FeeCapTooHighError".

Definition assertTransactionEIP1559 (t : TransactionSerializable) : Outcome unit :=
  if negb (defined (chainId t)) then Raised "eip1559: InvalidChainIdError"
  else if inRange (maxFeePerGas t) && inRange (maxPriorityFeePerGas t)
  then Returned tt
  else Raised "eip1559: FeeCapTooHighError".

Definition assertTransactionEIP4844 (t : TransactionSerializable) : Outcome unit :=
  if negb (defined (chainId t)) then Raised "eip4844: InvalidChainIdError"
  else if negb (defined (blobVersionedHashes t))
  then Raised "eip4844: EmptyBlobError"
  else if inRange (maxFeePerGas t) && inRange (maxPriorityFeePerGas t)
          && inRange (maxFeePerBlobGas t)
  then Returned tt
  else Raised "eip4844: FeeCapTooHighError".

(** Modelled from the spec: [getTransactionType] is missing from the
    sources; section 4.1 makes an explicit type tag authoritative and
    otherwise resolves by the presence of blob fields, then of the
    maximum-fee fields, then of an access list or a chain identifier,
    and falls back to the legacy variant. *)
Definition getTransactionType (t : TransactionSerializable) : Outcome string :=
  match type t with
  | Some tag => Returned tag
  | None =>
    if defined (blobs t) || defined (blobVersionedHashes t)
       || defined (maxFeePerBlobGas t)
    then Returned "eip4844"
    else if defined (maxFeePerGas t) || defined (maxPriorityFeePerGas t)
    then Returned "eip1559"
    else if defined (accessList t) || defined (chainId t)
    then Returned "eip2930"
    else Returned "legacy"
  end.

Definition collaborators : Collaborators :=
  Build_Collaborators toHex toRlp concatHex trim serializeAccessList
    assertTransactionEIP1559 assertTransactionEIP2930
    assertTransactionEIP4844 assertTransactionLegacy getTransactionType.

End Reference.

(** An empty record and an empty signature, to write examples by
    overriding the populated properties. *)
Definition noSignature : Signature :=
  {| r := None; s := None; v := None; yParity := None |}.

Definition emptyTransaction : TransactionSerializable :=
  {| type := None; chainId := None; nonce := None; gas := None;
     gasPrice := None; maxFeePerGas := None; maxPriorityFeePerGas := None;
     maxFeePerBlobGas := None; to := Undefined; value := None; data := None;
     accessList := None; blobVersionedHashes := None; blobs := None;
     kzgCommitments := None; kzgProofs := None;
     ownSignature := noSignature |}.

(** The signing example of EIP-155: nonce 9, gas price 20 gwei, gas
    limit 21000, one ether to [0x3535...35], chain 1. *)
Definition eip155Example : TransactionSerializable :=
  {| type := Some "legacy"; chainId := Some 1; nonce := Some 9;
     gas := Some 21000; gasPrice := Some 20000000000;
     maxFeePerGas := None; maxPriorityFeePerGas := None;
     maxFeePerBlobGas := None;
     to := Value "0x3535353535353535353535353535353535353535";
     value := Some 1000000000000000000; data := None;
     accessList := None; blobVersionedHashes := None; blobs := None;
     kzgCommitments := None; kzgProofs := None;
     ownSignature := noSignature |}.

(** ** The specification's vocabulary

    The definitions below follow the wording of the specification; the
    theorems compare them with the encoders above. *)

(** "absent or 0" *)
Definition absentOrZero (x : option Z) : Prop := x = None \/ x = Some 0.

(** A chain identifier is an unsigned integer (data model, section 3). *)
Definition unsignedChainId (t : TransactionSerializable) : Prop :=
  0 <= nullishOpt (chainId t) 0.

(** Section 4.3, the three rules for the recovery value of a signed
    legacy record, in the order they are tried. *)
Inductive LegacyRecovery (chainId_ : option Z) (signatureV : Z) : Z -> Prop :=
| explicit_chain_id c :
    chainId_ = Some c -> 0 < c ->
    LegacyRecovery chainId_ signatureV (c * 2 + 35 + (signatureV - 27))
| inferred_chain_id :
    ~ (exists c, chainId_ = Some c /\ 0 < c) ->
    35 <= signatureV -> 0 < (signatureV - 35) / 2 ->
    LegacyRecovery chainId_ signatureV signatureV
| inferred_chain_id_zero :
    ~ (exists c, chainId_ = Some c /\ 0 < c) ->
    35 <= signatureV -> ~ 0 < (signatureV - 35) / 2 ->
    LegacyRecovery chainId_ signatureV (if signatureV =? 35 then 27 else 28)
| pre_chain_id :
    ~ (exists c, chainId_ = Some c /\ 0 < c) ->
    signatureV < 35 -> signatureV = 27 \/ signatureV = 28 ->
    LegacyRecovery chainId_ signatureV signatureV.

(** The route the dispatcher takes for a resolved type. *)
Definition legacyRoute (type_ : string) : Prop :=
  type_ <> "eip1559" /\ type_ <> "eip2930" /\ type_ <> "eip4844".

Section Vocabulary.

Context {C : Collaborators}.

(** "x-or-empty": the placeholder when the field is absent or zero, the
    hex value of the field otherwise. *)
Inductive OrEmpty (x : option Z) : Hex -> Prop :=
| or_empty : absentOrZero x -> OrEmpty x "0x"
| or_hex n h :
    x = Some n -> n <> 0 -> toHex (Some n) = Returned h -> OrEmpty x h.

(** Section 4.2 as the claim words the parity field: the hex value of
    an explicit parity bit; else the placeholder for a recovery value
    of 0 or 27; else hex 1 for 1; else hex 1 for an odd offset and the
    placeholder otherwise. *)
Definition claimedYParity (bit : option Z) (v_ : Z) : Result Hex :=
  match bit with
  | Some n => call (toHex (Some n))
  | None =>
    if (v_ =? 0) || (v_ =? 27) then Ok "0x"
    else if v_ =? 1 then call (toHex (Some 1))
    else if Z.odd (v_ - 35) then call (toHex (Some 1))
    else Ok "0x"
  end.

(** The parity field as amended: any recovery value other than 0, 1
    and 27, an undefined one included, gives hex 1. *)
Definition amendedYParity (sg : Signature) : Result Hex :=
  match yParity sg with
  | Some (YNumber n) => call (toHex (Some n))
  | _ =>
    if strictEq (v sg) 0 || strictEq (v sg) 27 then Ok "0x"
    else call (toHex (Some 1))
  end.

(** Section 4.3: the six base fields of a legacy record, in order. *)
Definition LegacyBase (t : TransactionSerializable)
    (base : list RecursiveArray) : Prop :=
  exists nonce_ gasPrice_ gas_ value_,
    OrEmpty (nonce t) nonce_ /\
    OrEmpty (gasPrice t) gasPrice_ /\
    OrEmpty (gas t) gas_ /\
    OrEmpty (value t) value_ /\
    base = [ RHex nonce_;
             RHex gasPrice_;
             RHex gas_;
             RHex (nullish (to t) "0x");
             RHex value_;
             RHex (nullishOpt (data t) "0x") ].

(** Section 4.4: the fields of an access-list record, in order,
    followed by the signature tail. *)
Definition EIP2930Fields (t : TransactionSerializable)
    (serializedAccessList : RecursiveArray) (tail fields : list RecursiveArray)
  : Prop :=
  exists chainId_ nonce_ gasPrice_ gas_ value_,
    toHex (chainId t) = Returned chainId_ /\
    OrEmpty (nonce t) nonce_ /\
    OrEmpty (gasPrice t) gasPrice_ /\
    OrEmpty (gas t) gas_ /\
    OrEmpty (value t) value_ /\
    fields = [ RHex chainId_;
               RHex nonce_;
               RHex gasPrice_;
               RHex gas_;
               RHex (nullish (to t) "0x");
               RHex value_;
               RHex (nullishOpt (data t) "0x");
               serializedAccessList ] ++ tail.

(** Section 4.5: the fields of a priority-fee record. *)
Definition EIP1559Fields (t : TransactionSerializable)
    (serializedAccessList : RecursiveArray) (tail fields : list RecursiveArray)
  : Prop :=
  exists chainId_ nonce_ maxPriorityFeePerGas_ maxFeePerGas_ gas_ value_,
    toHex (chainId t) = Returned chainId_ /\
    OrEmpty (nonce t) nonce_ /\
    OrEmpty (maxPriorityFeePerGas t) maxPriorityFeePerGas_ /\
    OrEmpty (maxFeePerGas t) maxFeePerGas_ /\
    OrEmpty (gas t) gas_ /\
    OrEmpty (value t) value_ /\
    fields = [ RHex chainId_;
               RHex nonce_;
               RHex maxPriorityFeePerGas_;
               RHex maxFeePerGas_;
               RHex gas_;
               RHex (nullish (to t) "0x");
               RHex value_;
               RHex (nullishOpt (data t) "0x");
               serializedAccessList ] ++ tail.

(** Section 4.6: the fields of a blob-carrying record. *)
Definition EIP4844Fields (t : TransactionSerializable)
    (serializedAccessList : RecursiveArray) (tail fields : list RecursiveArray)
  : Prop :=
  exists chainId_ nonce_ maxPriorityFeePerGas_ maxFeePerGas_ gas_ value_
         maxFeePerBlobGas_,
    toHex (chainId t) = Returned chainId_ /\
    OrEmpty (nonce t) nonce_ /\
    OrEmpty (maxPriorityFeePerGas t) maxPriorityFeePerGas_ /\
    OrEmpty (maxFeePerGas t) maxFeePerGas_ /\
    OrEmpty (gas t) gas_ /\
    OrEmpty (value t) value_ /\
    OrEmpty (maxFeePerBlobGas t) maxFeePerBlobGas_ /\
    fields = [ RHex chainId_;
               RHex nonce_;
               RHex maxPriorityFeePerGas_;
               RHex maxFeePerGas_;
               RHex gas_;
               RHex (nullish (to t) "0x");
               RHex value_;
               RHex (nullishOpt (data t) "0x");
               serializedAccessList;
               RHex maxFeePerBlobGas_;
               ofHexArray (blobVersionedHashes t) ] ++ tail.

(** Section 4.6: what is encoded for a blob-carrying record, the
    four-element wrapper when raw blob payloads are present and the
    field list alone otherwise. *)
Definition blobEnvelope (t : TransactionSerializable)
    (fields : list RecursiveArray) : RecursiveArray :=
  match blobs t with
  | Some blobs_ =>
    RArray [ RArray fields;
             RArray (map RHex blobs_);
             ofHexArray (kzgCommitments t);
             ofHexArray (kzgProofs t) ]
  | None => RArray fields
  end.

(** The signature tail is empty. *)
Definition unsignedTail (sg : Signature) : Prop :=
  r sg = None \/ s sg = None \/ (v sg = None /\ yParity sg = None).

(** Section 4.2: the object the signature is read from, the explicit
    signature when one is supplied and the record otherwise. *)
Definition signatureSource (t : TransactionSerializable)
    (signature : option Signature) : Signature :=
  match signature with
  | Some sg => sg
  | None => ownSignature t
  end.

(** The conditions under which the claim has the invalid recovery
    value error raised with [sv]: the record takes the legacy route, a
    signature is supplied whose [v] is [sv], the chain id is absent or
    zero, and [sv] is below 35 and neither 27 nor 28. *)
Definition invalidLegacyVConditions (t : TransactionSerializable)
    (signature : option Signature) (sv : Z) : Prop :=
  exists type_ sg,
    getTransactionType t = Returned type_ /\ legacyRoute type_ /\
    signature = Some sg /\ v sg = Some sv /\
    absentOrZero (chainId t) /\
    sv < 35 /\ sv <> 27 /\ sv <> 28.

(** The imported type resolution and validations do not tell two
    records apart. *)
Definition sameVerdicts (t t' : TransactionSerializable) : Prop :=
  getTransactionType t = getTransactionType t' /\
  assertTransactionLegacy t = assertTransactionLegacy t' /\
  assertTransactionEIP2930 t = assertTransactionEIP2930 t' /\
  assertTransactionEIP1559 t = assertTransactionEIP1559 t' /\
  assertTransactionEIP4844 t = assertTransactionEIP4844 t'.

(** The tail the claim describes for a signature with [r], [s] and a
    recovery value. *)
Definition claimedTail (r_ s_ : Hex) (bit : option Z) (v_ : Z)
  : Result (list RecursiveArray) :=
  p <- claimedYParity bit v_ ;;
  Ok [RHex p; RHex (trim r_); RHex (trim s_)].

End Vocabulary.

(** Two optional numbers that are equal, or both absent or zero. *)
Definition sameOrEmpty (x y : option Z) : Prop :=
  x = y \/ (truthy x = false /\ truthy y = false).

(** Two records that differ at most in that an optional numeric field
    is zero in one and absent in the other. *)
Record SameUpToZero (t t' : TransactionSerializable) : Prop := {
  same_type : type t = type t';
  same_chainId : chainId t = chainId t';
  same_nonce : sameOrEmpty (nonce t) (nonce t');
  same_gas : sameOrEmpty (gas t) (gas t');
  same_gasPrice : sameOrEmpty (gasPrice t) (gasPrice t');
  same_maxFeePerGas : sameOrEmpty (maxFeePerGas t) (maxFeePerGas t');
  same_maxPriorityFeePerGas :
    sameOrEmpty (maxPriorityFeePerGas t) (maxPriorityFeePerGas t');
  same_maxFeePerBlobGas :
    sameOrEmpty (maxFeePerBlobGas t) (maxFeePerBlobGas t');
  same_to : to t = to t';
  same_value : sameOrEmpty (value t) (value t');
  same_data : data t = data t';
  same_accessList : accessList t = accessList t';
  same_blobVersionedHashes : blobVersionedHashes t = blobVersionedHashes t';
  same_blobs : blobs t = blobs t';
  same_kzgCommitments : kzgCommitments t = kzgCommitments t';
  same_kzgProofs : kzgProofs t = kzgProofs t';
  same_ownSignature : ownSignature t = ownSignature t'
}.

(** The EIP-155 example with the gas limit absent and the nonce zero,
    and the same record with the gas limit zero and the nonce absent. *)
Definition zeroNonce : TransactionSerializable :=
  {| type := Some "legacy"; chainId := Some 1; nonce := Some 0;
     gas := None; gasPrice := Some 20000000000;
     maxFeePerGas := None; maxPriorityFeePerGas := None;
     maxFeePerBlobGas := None;
     to := Value "0x3535353535353535353535353535353535353535";
     value := Some 1000000000000000000; data := None;
     accessList := None; blobVersionedHashes := None; blobs := None;
     kzgCommitments := None; kzgProofs := None;
     ownSignature := noSignature |}.

Definition absentNonce : TransactionSerializable :=
  {| type := Some "legacy"; chainId := Some 1; nonce := None;
     gas := Some 0; gasPrice := Some 20000000000;
     maxFeePerGas := None; maxPriorityFeePerGas := None;
     maxFeePerBlobGas := None;
     to := Value "0x3535353535353535353535353535353535353535";
     value := Some 1000000000000000000; data := None;
     accessList := None; blobVersionedHashes := None; blobs := None;
     kzgCommitments := None; kzgProofs := None;
     ownSignature := noSignature |}.

(** A priority-fee record that carries a complete signature of its
    own, and an explicit signature object without [r]. *)
Definition selfSigned : TransactionSerializable :=
  {| type := Some "eip1559"; chainId := Some 1; nonce := Some 7;
     gas := Some 21000; gasPrice := None;
     maxFeePerGas := Some 30000000000; maxPriorityFeePerGas := Some 1000000000;
     maxFeePerBlobGas := None;
     to := Value "0x3535353535353535353535353535353535353535";
     value := Some 1; data := None;
     accessList := None; blobVersionedHashes := None; blobs := None;
     kzgCommitments := None; kzgProofs := None;
     ownSignature :=
       {| r := Some "0x00aa"; s := Some "0x00bb"; v := Some 28;
          yParity := None |} |}.

Definition signatureWithoutR : Signature :=
  {| r := None; s := Some "0x00cc"; v := Some 27; yParity := None |}.

(** A record tagged with a type string the dispatcher does not know. *)
Definition futureType : TransactionSerializable :=
  {| type := Some "eip7702"; chainId := None; nonce := Some 1;
     gas := Some 21000; gasPrice := Some 1;
     maxFeePerGas := None; maxPriorityFeePerGas := None;
     maxFeePerBlobGas := None; to := Null;
     value := None; data := Some "0xc0de";
     accessList := None; blobVersionedHashes := None; blobs := None;
     kzgCommitments := None; kzgProofs := None;
     ownSignature := noSignature |}.

(** A legacy record whose gas price is out of range, and a signature
    with a recovery value of 29. *)
Definition overpriced : TransactionSerializable :=
  {| type := Some "legacy"; chainId := None; nonce := Some 1;
     gas := Some 21000; gasPrice := Some (2 ^ 256);
     maxFeePerGas := None; maxPriorityFeePerGas := None;
     maxFeePerBlobGas := None; to := Null;
     value := None; data := None;
     accessList := None; blobVersionedHashes := None; blobs := None;
     kzgCommitments := None; kzgProofs := None;
     ownSignature := noSignature |}.

Definition signature29 : Signature :=
  {| r := Some "0x0a"; s := Some "0x0b"; v := Some 29; yParity := None |}.

(** A signature with a recovery value of 37 and no parity bit. *)
Definition signature37 : Signature :=
  {| r := Some "0x01"; s := Some "0x02"; v := Some 37; yParity := None |}.

(** ** Records and signatures that differ in one property *)

(** The signature object [sg] with its [v] replaced. *)
Definition withV (x : option Z) (sg : Signature) : Signature :=
  {| r := r sg; s := s sg; v := x; yParity := yParity sg |}.

(** The signature object [sg] with its [yParity] replaced. *)
Definition withYParity (y : option YParity) (sg : Signature) : Signature :=
  {| r := r sg; s := s sg; v := v sg; yParity := y |}.

(** The record [t] with its [chainId] replaced. *)
Definition withChainId (c : option Z) (t : TransactionSerializable)
  : TransactionSerializable :=
  {| type := type t; chainId := c; nonce := nonce t; gas := gas t;
     gasPrice := gasPrice t; maxFeePerGas := maxFeePerGas t;
     maxPriorityFeePerGas := maxPriorityFeePerGas t;
     maxFeePerBlobGas := maxFeePerBlobGas t; to := to t; value := value t;
     data := data t; accessList := accessList t;
     blobVersionedHashes := blobVersionedHashes t; blobs := blobs t;
     kzgCommitments := kzgCommitments t; kzgProofs := kzgProofs t;
     ownSignature := ownSignature t |}.

(** The record [t] with its own [r], [s], [v] and [yParity] replaced. *)
Definition withOwnSignature (sg : Signature) (t : TransactionSerializable)
  : TransactionSerializable :=
  {| type := type t; chainId := chainId t; nonce := nonce t; gas := gas t;
     gasPrice := gasPrice t; maxFeePerGas := maxFeePerGas t;
     maxPriorityFeePerGas := maxPriorityFeePerGas t;
     maxFeePerBlobGas := maxFeePerBlobGas t; to := to t; value := value t;
     data := data t; accessList := accessList t;
     blobVersionedHashes := blobVersionedHashes t; blobs := blobs t;
     kzgCommitments := kzgCommitments t; kzgProofs := kzgProofs t;
     ownSignature := sg |}.

(** The record [t] with its [kzgCommitments] and [kzgProofs] replaced. *)
Definition withSidecar (commitments proofs : option (list Hex))
    (t : TransactionSerializable) : TransactionSerializable :=
  {| type := type t; chainId := chainId t; nonce := nonce t; gas := gas t;
     gasPrice := gasPrice t; maxFeePerGas := maxFeePerGas t;
     maxPriorityFeePerGas := maxPriorityFeePerGas t;
     maxFeePerBlobGas := maxFeePerBlobGas t; to := to t; value := value t;
     data := data t; accessList := accessList t;
     blobVersionedHashes := blobVersionedHashes t; blobs := blobs t;
     kzgCommitments := commitments; kzgProofs := proofs;
     ownSignature := ownSignature t |}.

(** The resolved type is one of the three typed variants. *)
Definition typedRoute (type_ : string) : Prop :=
  type_ = "eip1559" \/ type_ = "eip2930" \/ type_ = "eip4844".


Section Comparisons.

Context {C : Collaborators}.

(** Two signature arguments under which the signature tail and the
    three typed encoders do the same for the record [t]. *)
Definition sameTypedSerialization (t : TransactionSerializable)
    (signature signature' : option Signature) : Prop :=
  toYParitySignatureArray t signature = toYParitySignatureArray t signature' /\
  serializeTransactionEIP2930 t signature
    = serializeTransactionEIP2930 t signature' /\
  serializeTransactionEIP1559 t signature
    = serializeTransactionEIP1559 t signature' /\
  serializeTransactionEIP4844 t signature
    = serializeTransactionEIP4844 t signature'.

End Comparisons.

(** A blob-carrying record without raw blob payloads, and a signature
    with a parity bit. *)
Definition blobRecord : TransactionSerializable :=
  {| type := Some "eip4844"; chainId := Some 1; nonce := Some 2;
     gas := Some 21000; gasPrice := None;
     maxFeePerGas := Some 30000000000; maxPriorityFeePerGas := Some 1000000000;
     maxFeePerBlobGas := Some 5;
     to := Value "0x3535353535353535353535353535353535353535";
     value := None; data := None;
     accessList := None;
     blobVersionedHashes := Some ["0x01aa"];
     blobs := None; kzgCommitments := None; kzgProofs := None;
     ownSignature := noSignature |}.

Definition signatureWithParity : Signature :=
  {| r := Some "0x0a"; s := Some "0x0b"; v := Some 28;
     yParity := Some (YNumber 1) |}.

Definition signature27 : Signature :=
  {| r := Some "0x0a"; s := Some "0x0b"; v := Some 27; yParity := None |}.

(** ** Properties *)


(** *** The monad *)

Lemma Ok_inj {A} (a b : A) : Ok a = Ok b -> a = b.
Proof. congruence. Qed.

Lemma bind_Ok_iff {A B} (m : Result A) (k : A -> Result B) (b : B) :
  bind m k = Ok b <-> exists a, m = Ok a /\ k a = Ok b.
Proof.
  destruct m as [a|e]; simpl; split.
  - intros H. exists a. auto.
  - intros (a' & Ha & Hk). injection Ha as ->. exact Hk.
  - discriminate.
  - intros (a' & Ha & _). discriminate.
Qed.

Lemma bind_Throw_iff {A B} (m : Result A) (k : A -> Result B) (e : Error) :
  bind m k = Throw e <->
  m = Throw e \/ exists a, m = Ok a /\ k a = Throw e.
Proof.
  destruct m as [a|e']; simpl; split.
  - intros H. right. exists a. auto.
  - intros [H|(a' & Ha & Hk)]; [discriminate|]. injection Ha as ->. exact Hk.
  - intros H. left. congruence.
  - intros [H|(a' & Ha & _)]; [congruence|discriminate].
Qed.

Lemma call_Ok_iff {A} (o : Outcome A) (a : A) :
  call o = Ok a <-> o = Returned a.
Proof. destruct o; simpl; split; congruence. Qed.


(** An imported function never raises the error of this file. *)
Lemma call_not_InvalidLegacyV {A} (o : Outcome A) (x : option Z) :
  call o <> Throw (InvalidLegacyVError x).
Proof. destruct o; simpl; discriminate. Qed.

(** Inverts a chain of binds that returned. *)
Ltac bind_inv H :=
  repeat (apply bind_Ok_iff in H; destruct H as (? & ? & H)).

(** Splits a chain of binds that threw [e] into the step that threw;
    [tac] closes the steps that cannot throw [e]. *)
Ltac bind_throw H tac :=
  repeat (apply bind_Throw_iff in H;
          destruct H as [H | (? & ? & H)]; [solve [tac H] | ]).

Lemma truthy_false_iff (x : option Z) : truthy x = false <-> absentOrZero x.
Proof.
  unfold absentOrZero. destruct x as [n|]; simpl.
  - rewrite negb_false_iff, Z.eqb_eq. split.
    + intros ->. auto.
    + intros [H|H]; congruence.
  - split; auto.
Qed.

Lemma truthy_true_iff (x : option Z) :
  truthy x = true <-> exists n, x = Some n /\ n <> 0.
Proof.
  destruct x as [n|]; simpl.
  - rewrite negb_true_iff, Z.eqb_neq. split.
    + eauto.
    + intros (n' & Hn & Hne). congruence.
  - split; [discriminate|]. intros (n & Hn & _). discriminate.
Qed.

Section Properties.

Context {C : Collaborators}.

Lemma toHexOrEmpty_Ok_iff (x : option Z) (h : Hex) :
  toHexOrEmpty x = Ok h <-> OrEmpty x h.
Proof.
  unfold toHexOrEmpty. destruct (truthy x) eqn:E.
  - apply truthy_true_iff in E as (n & -> & Hn).
    rewrite call_Ok_iff. split.
    + intros H. eapply or_hex; eauto.
    + intros [[H|H]|n' h' Hx Hn' Hh]; congruence.
  - split.
    + intros H. injection H as <-. apply or_empty, truthy_false_iff, E.
    + intros [H|n h' -> Hn Hh]; [reflexivity|].
      simpl in E. apply negb_false_iff, Z.eqb_eq in E. contradiction.
Qed.

Lemma toHexOrEmpty_not_InvalidLegacyV (x y : option Z) :
  toHexOrEmpty x <> Throw (InvalidLegacyVError y).
Proof.
  unfold toHexOrEmpty. destruct (truthy x);
    [apply call_not_InvalidLegacyV | discriminate].
Qed.

(** *** The recovery value of a signed legacy record *)

Lemma explicit_chain_iff (cid : option Z) :
  (exists c, cid = Some c /\ 0 < c) <-> 0 < nullishOpt cid 0.
Proof.
  destruct cid as [c|]; simpl; split.
  - intros (c' & Hc & Hpos). congruence.
  - eauto.
  - intros (c' & Hc & _). discriminate.
  - lia.
Qed.

Lemma legacyV_rules (cid : option Z) (sg : Signature) (sv out : Z) :
  v sg = Some sv ->
  (legacyV (nullishOpt cid 0) sg = Ok out <-> LegacyRecovery cid sv out).
Proof.
  intros Hv. unfold legacyV. rewrite Hv. cbv beta iota zeta.
  pose proof (explicit_chain_iff cid) as Hc.
  destruct (Z.ltb_spec 0 (nullishOpt cid 0)) as [Hpos|Hle].
  - split.
    + intros H%Ok_inj. subst out.
      apply Hc in Hpos as (c & -> & Hpos). cbn [nullishOpt].
      replace (c * 2 + (35 + sv - 27)) with (c * 2 + 35 + (sv - 27)) by lia.
      now apply explicit_chain_id.
    + intros [c Hcid Hc0| Hno _ _ | Hno _ _ | Hno _ _].
      * subst cid. cbn [nullishOpt]. f_equal. lia.
      * exfalso. apply Hno, Hc, Hpos.
      * exfalso. apply Hno, Hc, Hpos.
      * exfalso. apply Hno, Hc, Hpos.
  - assert (Hno : ~ (exists c, cid = Some c /\ 0 < c)) by (rewrite Hc; lia).
    destruct (Z.leb_spec 35 sv) as [H35|H35].
    + rewrite Z.quot_div_nonneg by lia.
      destruct (Z.ltb_spec 0 ((sv - 35) / 2)) as [Hinf|Hinf].
      * split.
        -- intros H%Ok_inj. subst out. now apply inferred_chain_id.
        -- intros [c Hcid Hc0| _ _ _ | _ _ Hn | _ Hlt _];
             [exfalso; apply Hno; eauto | reflexivity | lia | lia].
      * split.
        -- intros H%Ok_inj. subst out.
           replace (27 + (if sv =? 35 then 0 else 1))
             with (if sv =? 35 then 27 else 28)
             by (destruct (sv =? 35); reflexivity).
           apply inferred_chain_id_zero; auto; lia.
        -- intros [c Hcid Hc0| _ _ Hn | _ _ _ | _ Hlt _];
             [exfalso; apply Hno; eauto | lia | | lia].
           destruct (sv =? 35); reflexivity.
    + destruct (Z.eqb_spec sv 27) as [->|H27]; cbn [negb].
      * split.
        -- intros H%Ok_inj. subst out. apply pre_chain_id; auto; lia.
        -- intros [c Hcid Hc0| _ Hge _ | _ Hge _ | _ _ _];
             [exfalso; apply Hno; eauto | lia | lia | reflexivity].
      * replace (27 + 1) with 28 by reflexivity.
        destruct (Z.eqb_spec sv 28) as [->|H28]; cbn [negb].
        -- split.
           ++ intros H%Ok_inj. subst out. apply pre_chain_id; auto; lia.
           ++ intros [c Hcid Hc0| _ Hge _ | _ Hge _ | _ _ _];
                [exfalso; apply Hno; eauto | lia | lia | reflexivity].
        -- split; [discriminate|].
           intros [c Hcid Hc0| _ Hge _ | _ Hge _ | _ _ [H|H]];
             [exfalso; apply Hno; eauto | lia | lia | lia | lia].
Qed.

Lemma LegacyRecovery_functional (cid : option Z) (sv v1 v2 : Z) :
  LegacyRecovery cid sv v1 -> LegacyRecovery cid sv v2 -> v1 = v2.
Proof.
  set (sg := {| r := None; s := None; v := Some sv; yParity := None |}).
  intros H1 H2.
  apply (legacyV_rules cid sg sv _ eq_refl) in H1, H2. congruence.
Qed.

(** *** The legacy encoder *)

Lemma serializedTransactionLegacy_Ok_iff
    (t : TransactionSerializable) (base : list RecursiveArray) :
  serializedTransactionLegacy t = Ok base <-> LegacyBase t base.
Proof.
  unfold serializedTransactionLegacy, LegacyBase. split.
  - intros H. bind_inv H. apply Ok_inj in H.
    repeat match goal with
           | E : toHexOrEmpty _ = Ok _ |- _ => apply toHexOrEmpty_Ok_iff in E
           end.
    eauto 10.
  - intros (n & gp & g & vl & Hn & Hgp & Hg & Hvl & ->).
    apply toHexOrEmpty_Ok_iff in Hn, Hgp, Hg, Hvl.
    rewrite Hn, Hgp, Hg, Hvl. reflexivity.
Qed.

Lemma serializeTransactionLegacy_Ok_iff
    (t : TransactionSerializable) (signature : option Signature) (out : Hex) :
  serializeTransactionLegacy t signature = Ok out <->
  exists base,
    assertTransactionLegacy t = Returned tt /\
    LegacyBase t base /\
    match signature with
    | Some sg =>
      exists v_ hv,
        legacyV (nullishOpt (chainId t) 0) sg = Ok v_ /\
        toHex (Some v_) = Returned hv /\
        toRlp (RArray (base ++ [RHex hv; ofHex (r sg); ofHex (s sg)]))
          = Returned out
    | None =>
      if 0 <? nullishOpt (chainId t) 0 then
        exists hc,
          toHex (Some (nullishOpt (chainId t) 0)) = Returned hc /\
          toRlp (RArray (base ++ [RHex hc; RHex "0x"; RHex "0x"]))
            = Returned out
      else toRlp (RArray base) = Returned out
    end.
Proof.
  unfold serializeTransactionLegacy. cbv zeta. split.
  - intros H. bind_inv H.
    match goal with E : call (assertTransactionLegacy t) = _ |- _ =>
      apply call_Ok_iff in E; destruct x; rename E into Hassert end.
    match goal with E : serializedTransactionLegacy t = _ |- _ =>
      apply serializedTransactionLegacy_Ok_iff in E; rename E into Hbase end.
    apply call_Ok_iff in H.
    eexists. split; [exact Hassert|]. split; [exact Hbase|].
    destruct signature as [sg|].
    + match goal with E : bind (legacyV _ _) _ = _ |- _ => bind_inv E;
        apply Ok_inj in E; subst end.
      match goal with E : call (toHex _) = _ |- _ => apply call_Ok_iff in E end.
      eauto.
    + destruct (0 <? nullishOpt (chainId t) 0).
      * match goal with E : bind (call (toHex _)) _ = _ |- _ => bind_inv E;
          apply Ok_inj in E; subst end.
        match goal with E : call (toHex _) = _ |- _ => apply call_Ok_iff in E end.
        eauto.
      * match goal with E : Ok _ = Ok _ |- _ => apply Ok_inj in E; subst end.
        exact H.
  - intros (base & Hassert & Hbase & Hsig).
    apply serializedTransactionLegacy_Ok_iff in Hbase.
    rewrite Hassert, Hbase. cbn [call bind].
    destruct signature as [sg|].
    + destruct Hsig as (v_ & hv & Hv & Hhv & Hrlp).
      rewrite Hv. cbn [bind]. rewrite Hhv. cbn [call bind].
      rewrite Hrlp. reflexivity.
    + destruct (0 <? nullishOpt (chainId t) 0).
      * destruct Hsig as (hc & Hhc & Hrlp).
        rewrite Hhc. cbn [call bind]. rewrite Hrlp. reflexivity.
      * cbn [bind]. rewrite Hsig. reflexivity.
Qed.

(** C1.  The recovery value encoded for a signed legacy record follows
    the three rules of section 4.3, tried in order: an explicit chain
    id above zero gives [chainId*2 + 35 + (v - 27)]; otherwise a [v] of
    at least 35 is kept when the chain id it implies is above zero and
    collapses to 27 (for 35) or 28; otherwise [v] must be 27 or 28 and
    is kept.  Exactly one rule applies, its value is the seventh field
    of the encoded list, and the three cases the specification lists
    give 37, 37 and 27. *)
Theorem legacy_recovery_value
    (t : TransactionSerializable) (sg : Signature) (sv : Z) :
  v sg = Some sv ->
  (forall v_,
      legacyV (nullishOpt (chainId t) 0) sg = Ok v_ <->
      LegacyRecovery (chainId t) sv v_) /\
  (forall v1 v2,
      LegacyRecovery (chainId t) sv v1 -> LegacyRecovery (chainId t) sv v2 ->
      v1 = v2) /\
  (forall out,
      serializeTransactionLegacy t (Some sg) = Ok out <->
      exists base v_ hv,
        assertTransactionLegacy t = Returned tt /\
        LegacyBase t base /\
        LegacyRecovery (chainId t) sv v_ /\
        toHex (Some v_) = Returned hv /\
        toRlp (RArray (base ++ [RHex hv; ofHex (r sg); ofHex (s sg)]))
          = Returned out) /\
  (forall sg', v sg' = Some 27 -> legacyV (nullishOpt (Some 1) 0) sg' = Ok 37) /\
  (forall sg', v sg' = Some 37 -> legacyV (nullishOpt None 0) sg' = Ok 37) /\
  (forall sg', v sg' = Some 35 -> legacyV (nullishOpt None 0) sg' = Ok 27).
Proof.
  intros Hv. split; [|split; [|split; [|split; [|split]]]];
    try (intros sg' Hv'; unfold legacyV; rewrite Hv'; reflexivity).
  - intros v_. now apply legacyV_rules.
  - apply LegacyRecovery_functional.
  - intros out. rewrite serializeTransactionLegacy_Ok_iff. split.
    + intros (base & Hassert & Hbase & v_ & hv & Hrec & Hhv & Hrlp).
      apply (legacyV_rules _ _ sv _ Hv) in Hrec. eauto 10.
    + intros (base & v_ & hv & Hassert & Hbase & Hrec & Hhv & Hrlp).
      apply (legacyV_rules _ _ sv _ Hv) in Hrec. eauto 10.
Qed.

(** C7.  A legacy record is encoded as the six base fields followed,
    when a signature is supplied, by the encoded [v] and by [r] and [s]
    as they are; when none is supplied and the chain id is above zero,
    by the encoded chain id and two placeholders; and by nothing when
    none is supplied and the chain id is absent or zero.  The result is
    what [toRlp] returns for that list, with no marker in front. *)
Theorem legacy_field_list
    (t : TransactionSerializable) (out : Hex) :
  (forall sg,
      serializeTransactionLegacy t (Some sg) = Ok out <->
      exists base v_ hv,
        assertTransactionLegacy t = Returned tt /\
        LegacyBase t base /\
        legacyV (nullishOpt (chainId t) 0) sg = Ok v_ /\
        toHex (Some v_) = Returned hv /\
        toRlp (RArray (base ++ [RHex hv; ofHex (r sg); ofHex (s sg)]))
          = Returned out) /\
  (forall sg r_ s_, r sg = Some r_ -> s sg = Some s_ ->
      [ofHex (r sg); ofHex (s sg)] = [RHex r_; RHex s_]) /\
  (forall c, chainId t = Some c -> 0 < c ->
      (serializeTransactionLegacy t None = Ok out <->
       exists base hc,
         assertTransactionLegacy t = Returned tt /\
         LegacyBase t base /\
         toHex (Some c) = Returned hc /\
         toRlp (RArray (base ++ [RHex hc; RHex "0x"; RHex "0x"]))
           = Returned out)) /\
  (absentOrZero (chainId t) ->
      (serializeTransactionLegacy t None = Ok out <->
       exists base,
         assertTransactionLegacy t = Returned tt /\
         LegacyBase t base /\
         toRlp (RArray base) = Returned out)).
Proof.
  split; [|split; [|split]].
  - intros sg. rewrite serializeTransactionLegacy_Ok_iff. split.
    + intros (base & Hassert & Hbase & v_ & hv & Hrest). eauto 10.
    + intros (base & v_ & hv & Hassert & Hbase & Hrest). eauto 10.
  - intros sg r_ s_ -> ->. reflexivity.
  - intros c Hc Hpos. rewrite serializeTransactionLegacy_Ok_iff.
    rewrite Hc. cbn [nullishOpt].
    destruct (Z.ltb_spec 0 c) as [_|]; [|lia]. split.
    + intros (base & Hassert & Hbase & hc & Hrest). eauto 10.
    + intros (base & hc & Hassert & Hbase & Hrest). eauto 10.
  - intros Hc. rewrite serializeTransactionLegacy_Ok_iff.
    assert (E : (0 <? nullishOpt (chainId t) 0) = false)
      by (destruct Hc as [-> | ->]; reflexivity).
    rewrite E. reflexivity.
Qed.

(** *** The signature tail *)

Lemma signatureSource_eq (t : TransactionSerializable)
    (signature : option Signature) :
  nullishOpt signature (ownSignature t) = signatureSource t signature.
Proof. destruct signature; reflexivity. Qed.

Lemma yParity_rule (sg : Signature) :
  match yParity sg with
  | Some (YNumber n) => call (toHex (Some n))
  | _ =>
    if strictEq (v sg) 0 then Ok "0x"
    else if strictEq (v sg) 1 then call (toHex (Some 1))
    else if strictEq (v sg) 27 then Ok "0x"
    else call (toHex (Some 1))
  end = amendedYParity sg.
Proof.
  unfold amendedYParity.
  assert (E : (if strictEq (v sg) 0 then Ok "0x"
               else if strictEq (v sg) 1 then call (toHex (Some 1))
               else if strictEq (v sg) 27 then Ok "0x"
               else call (toHex (Some 1)))
              = (if strictEq (v sg) 0 || strictEq (v sg) 27 then Ok "0x"
                 else call (toHex (Some 1)))).
  { destruct (v sg) as [z|]; cbn [strictEq orb]; [|reflexivity].
    destruct (Z.eqb_spec z 0) as [->|H0]; [reflexivity|].
    destruct (Z.eqb_spec z 1) as [->|H1]; [reflexivity|].
    destruct (z =? 27); reflexivity. }
  destruct (yParity sg) as [[n|h]|]; [reflexivity | exact E | exact E].
Qed.

(** C2, amended.  The signature tail is empty when [r] is undefined, or
    [s] is undefined, or both [v] and [yParity] are undefined;
    otherwise it is the parity field followed by the trimmed [r] and
    the trimmed [s], where the parity field is the hex value of
    [yParity] when that is a number, else the placeholder when [v] is 0
    or 27, else hex 1 for every other [v]. *)
Theorem signature_tail
    (t : TransactionSerializable) (signature : option Signature) :
  (unsignedTail (signatureSource t signature) ->
   toYParitySignatureArray t signature = Ok []) /\
  (forall r_ s_,
      r (signatureSource t signature) = Some r_ ->
      s (signatureSource t signature) = Some s_ ->
      ~ (v (signatureSource t signature) = None /\
         yParity (signatureSource t signature) = None) ->
      toYParitySignatureArray t signature =
      (p <- amendedYParity (signatureSource t signature) ;;
       Ok [RHex p; RHex (trim r_); RHex (trim s_)])) /\
  (forall tail,
      toYParitySignatureArray t signature = Ok tail ->
      tail = [] \/ List.length tail = 3%nat).
Proof.
  unfold toYParitySignatureArray. cbv zeta.
  rewrite signatureSource_eq. set (sg := signatureSource t signature).
  rewrite yParity_rule.
  split; [|split].
  - intros [Hr | [Hs | [Hv Hy]]].
    + rewrite Hr. reflexivity.
    + rewrite Hs. destruct (r sg); reflexivity.
    + rewrite Hv, Hy. destruct (r sg), (s sg); reflexivity.
  - intros r_ s_ Hr Hs Hvy. rewrite Hr, Hs.
    destruct (v sg) as [z|] eqn:Ev, (yParity sg) as [y|] eqn:Ey;
      cbn [defined negb andb]; try reflexivity.
    exfalso. apply Hvy. split; reflexivity.
  - intros tail. destruct (r sg) as [r_|].
    + destruct (s sg) as [s_|].
      * destruct (negb (defined (v sg)) && negb (defined (yParity sg))).
        -- intros H%Ok_inj. left. congruence.
        -- intros H. bind_inv H. apply Ok_inj in H. subst tail.
           right. reflexivity.
      * intros H%Ok_inj. left. congruence.
    + intros H%Ok_inj. left. congruence.
Qed.

Lemma toYParitySignatureArray_not_InvalidLegacyV
    (t : TransactionSerializable) (signature : option Signature)
    (x : option Z) :
  toYParitySignatureArray t signature <> Throw (InvalidLegacyVError x).
Proof.
  unfold toYParitySignatureArray. cbv zeta. rewrite yParity_rule.
  set (sg := nullishOpt signature (ownSignature t)).
  destruct (r sg); [|discriminate].
  destruct (s sg); [|discriminate].
  destruct (negb (defined (v sg)) && negb (defined (yParity sg)));
    [discriminate|].
  intros H. apply bind_Throw_iff in H as [H | (p & _ & H)]; [|discriminate].
  revert H. unfold amendedYParity.
  destruct (yParity sg) as [[n|hy]|];
    try apply call_not_InvalidLegacyV;
    destruct (strictEq (v sg) 0 || strictEq (v sg) 27);
    try apply call_not_InvalidLegacyV; discriminate.
Qed.

(** *** Where the invalid recovery value error comes from *)

Lemma serializedTransactionLegacy_not_InvalidLegacyV
    (t : TransactionSerializable) (x : option Z) :
  serializedTransactionLegacy t <> Throw (InvalidLegacyVError x).
Proof.
  unfold serializedTransactionLegacy. intros H.
  bind_throw H ltac:(fun E => eapply toHexOrEmpty_not_InvalidLegacyV, E).
  discriminate.
Qed.

Ltac not_legacyV E :=
  exfalso; revert E;
  first [ apply call_not_InvalidLegacyV
        | apply toHexOrEmpty_not_InvalidLegacyV
        | apply toYParitySignatureArray_not_InvalidLegacyV
        | apply serializedTransactionLegacy_not_InvalidLegacyV ].

Lemma serializeTransactionEIP2930_not_InvalidLegacyV
    (t : TransactionSerializable) (signature : option Signature)
    (x : option Z) :
  serializeTransactionEIP2930 t signature <> Throw (InvalidLegacyVError x).
Proof.
  unfold serializeTransactionEIP2930, serializedTransactionEIP2930.
  intros H. bind_throw H not_legacyV.
  apply bind_Throw_iff in H as [H | (l & _ & H)].
  - bind_throw H not_legacyV. discriminate.
  - bind_throw H not_legacyV. discriminate.
Qed.

Lemma serializeTransactionEIP1559_not_InvalidLegacyV
    (t : TransactionSerializable) (signature : option Signature)
    (x : option Z) :
  serializeTransactionEIP1559 t signature <> Throw (InvalidLegacyVError x).
Proof.
  unfold serializeTransactionEIP1559, serializedTransactionEIP1559.
  intros H. bind_throw H not_legacyV.
  apply bind_Throw_iff in H as [H | (l & _ & H)].
  - bind_throw H not_legacyV. discriminate.
  - bind_throw H not_legacyV. discriminate.
Qed.

Lemma serializeTransactionEIP4844_not_InvalidLegacyV
    (t : TransactionSerializable) (signature : option Signature)
    (x : option Z) :
  serializeTransactionEIP4844 t signature <> Throw (InvalidLegacyVError x).
Proof.
  unfold serializeTransactionEIP4844, serializedTransactionEIP4844.
  intros H. bind_throw H not_legacyV.
  apply bind_Throw_iff in H as [H | (l & _ & H)].
  - bind_throw H not_legacyV. discriminate.
  - apply bind_Throw_iff in H as [H | (rlp & _ & H)]; [|discriminate].
    destruct (defined (blobs t)); not_legacyV H.
Qed.

Lemma legacyV_InvalidLegacyV_iff (chainId_ : Z) (sg : Signature)
    (x : option Z) :
  legacyV chainId_ sg = Throw (InvalidLegacyVError x) <->
  ~ 0 < chainId_ /\ v sg = x /\
  (forall sv, x = Some sv -> sv < 35 /\ sv <> 27 /\ sv <> 28).
Proof.
  unfold legacyV. destruct (Z.ltb_spec 0 chainId_) as [Hpos|Hle].
  - split.
    + destruct (v sg); discriminate.
    + intros (Hno & _). contradiction.
  - destruct (v sg) as [sv|]; cbv zeta.
    + destruct (Z.leb_spec 35 sv) as [H35|H35].
      * split.
        -- destruct (0 <? Z.quot (sv - 35) 2); discriminate.
        -- intros (_ & <- & Hx). destruct (Hx sv eq_refl). lia.
      * destruct (Z.eqb_spec sv 27) as [->|H27]; cbn [negb].
        -- split; [discriminate|].
           intros (_ & <- & Hx). destruct (Hx 27 eq_refl). lia.
        -- replace (27 + 1) with 28 by reflexivity.
           destruct (Z.eqb_spec sv 28) as [->|H28]; cbn [negb].
           ++ split; [discriminate|].
              intros (_ & <- & Hx). destruct (Hx 28 eq_refl). lia.
           ++ split.
              ** intros H. assert (x = Some sv) as -> by congruence.
                 split; [lia|]. split; [reflexivity|].
                 intros sv' Hsv. assert (sv' = sv) as -> by congruence. lia.
              ** intros (_ & <- & _). reflexivity.
    + split.
      * intros H. assert (x = None) as -> by congruence.
        split; [lia|]. split; [reflexivity|]. intros sv Hsv. discriminate.
      * intros (_ & <- & _). reflexivity.
Qed.

Lemma serializeTransactionLegacy_InvalidLegacyV_iff
    (t : TransactionSerializable) (signature : option Signature)
    (x : option Z) :
  serializeTransactionLegacy t signature = Throw (InvalidLegacyVError x) <->
  assertTransactionLegacy t = Returned tt /\
  (exists base, LegacyBase t base) /\
  exists sg,
    signature = Some sg /\
    legacyV (nullishOpt (chainId t) 0) sg = Throw (InvalidLegacyVError x).
Proof.
  unfold serializeTransactionLegacy. cbv zeta. split.
  - intros H. bind_throw H not_legacyV.
    match goal with E : call (assertTransactionLegacy t) = Ok ?u |- _ =>
      apply call_Ok_iff in E; destruct u; rename E into Hassert end.
    match goal with E : serializedTransactionLegacy t = Ok _ |- _ =>
      apply serializedTransactionLegacy_Ok_iff in E; rename E into Hbase end.
    split; [exact Hassert|]. split; [eauto|].
    apply bind_Throw_iff in H as [H | (l & _ & H)]; [|not_legacyV H].
    destruct signature as [sg|].
    + exists sg. split; [reflexivity|].
      apply bind_Throw_iff in H as [H | (v_ & _ & H)]; [exact H|].
      bind_throw H not_legacyV. discriminate.
    + destruct (0 <? nullishOpt (chainId t) 0).
      * bind_throw H not_legacyV. discriminate.
      * discriminate.
  - intros (Hassert & (base & Hbase) & sg & -> & Hv).
    apply serializedTransactionLegacy_Ok_iff in Hbase.
    rewrite Hassert, Hbase. cbn [call bind]. rewrite Hv. reflexivity.
Qed.

Lemma serializeTransaction_InvalidLegacyV_iff
    (t : TransactionSerializable) (signature : option Signature)
    (x : option Z) :
  serializeTransaction t signature = Throw (InvalidLegacyVError x) <->
  exists type_,
    getTransactionType t = Returned type_ /\ legacyRoute type_ /\
    serializeTransactionLegacy t signature = Throw (InvalidLegacyVError x).
Proof.
  unfold serializeTransaction, legacyRoute. split.
  - intros H. bind_throw H not_legacyV.
    match goal with E : call (getTransactionType t) = Ok ?ty |- _ =>
      apply call_Ok_iff in E; rename E into Htype; rename ty into type_ end.
    exists type_. split; [exact Htype|].
    destruct (String.eqb_spec type_ "eip1559") as [_|N1];
      [now apply serializeTransactionEIP1559_not_InvalidLegacyV in H|].
    destruct (String.eqb_spec type_ "eip2930") as [_|N2];
      [now apply serializeTransactionEIP2930_not_InvalidLegacyV in H|].
    destruct (String.eqb_spec type_ "eip4844") as [_|N3];
      [now apply serializeTransactionEIP4844_not_InvalidLegacyV in H|].
    auto.
  - intros (type_ & Htype & (N1 & N2 & N3) & H).
    rewrite Htype. cbn [call bind].
    apply String.eqb_neq in N1, N2, N3. rewrite N1, N2, N3. exact H.
Qed.

(** C3, amended.  For a record whose chain id is unsigned,
    [serializeTransaction] throws [InvalidLegacyVError] carrying the
    integer [sv] exactly when the imported validation of the legacy
    encoder and the hex conversions of its base fields have returned
    and the conditions of the claim hold: the record takes the legacy
    route, a signature is supplied whose [v] is [sv], the chain id is
    absent or zero, [sv < 35] and [sv] is neither 27 nor 28.  The three
    typed encoders never throw it, nor does the legacy encoder without
    a signature; with it, nothing is returned.  The error carries
    [undefined] only for a signature object that lacks [v]. *)
Theorem invalid_legacy_v_raised
    (t : TransactionSerializable) (signature : option Signature) (sv : Z) :
  unsignedChainId t ->
  (serializeTransaction t signature = Throw (InvalidLegacyVError (Some sv)) <->
   assertTransactionLegacy t = Returned tt /\
   (exists base, LegacyBase t base) /\
   invalidLegacyVConditions t signature sv) /\
  (forall x,
      serializeTransactionEIP1559 t signature <> Throw (InvalidLegacyVError x) /\
      serializeTransactionEIP2930 t signature <> Throw (InvalidLegacyVError x) /\
      serializeTransactionEIP4844 t signature <> Throw (InvalidLegacyVError x) /\
      serializeTransactionLegacy t None <> Throw (InvalidLegacyVError x)) /\
  (forall x out,
      serializeTransaction t signature = Throw (InvalidLegacyVError x) ->
      serializeTransaction t signature <> Ok out) /\
  (serializeTransaction t signature = Throw (InvalidLegacyVError None) ->
   exists sg, signature = Some sg /\ v sg = None).
Proof.
  intros Hunsigned.
  assert (Hchain : ~ 0 < nullishOpt (chainId t) 0 <-> absentOrZero (chainId t)).
  { unfold absentOrZero. unfold unsignedChainId in Hunsigned.
    destruct (chainId t) as [c|] eqn:E; cbn [nullishOpt] in *.
    - split.
      + intros H. right. f_equal. lia.
      + intros [H|H]; [discriminate|]. injection H as ->. lia.
    - split; [auto | lia]. }
  split; [|split; [|split]].
  - rewrite serializeTransaction_InvalidLegacyV_iff.
    unfold invalidLegacyVConditions. split.
    + intros (type_ & Htype & Hroute & H).
      apply serializeTransactionLegacy_InvalidLegacyV_iff
        in H as (Hassert & Hbase & sg & -> & H).
      apply legacyV_InvalidLegacyV_iff in H as (Hno & Hv & Hx).
      destruct (Hx sv eq_refl) as (H35 & H27 & H28).
      split; [exact Hassert|]. split; [exact Hbase|].
      exists type_, sg. rewrite <- Hchain. auto 12.
    + intros (Hassert & Hbase & type_ & sg & Htype & Hroute & ->
              & Hv & Hc & H35 & H27 & H28).
      exists type_. split; [exact Htype|]. split; [exact Hroute|].
      apply serializeTransactionLegacy_InvalidLegacyV_iff.
      split; [exact Hassert|]. split; [exact Hbase|].
      exists sg. split; [reflexivity|].
      apply legacyV_InvalidLegacyV_iff. rewrite Hchain.
      split; [exact Hc|]. split; [exact Hv|].
      intros sv' Hsv. assert (sv' = sv) as -> by congruence. auto.
  - intros x. split; [|split; [|split]].
    + apply serializeTransactionEIP1559_not_InvalidLegacyV.
    + apply serializeTransactionEIP2930_not_InvalidLegacyV.
    + apply serializeTransactionEIP4844_not_InvalidLegacyV.
    + intros H.
      apply serializeTransactionLegacy_InvalidLegacyV_iff
        in H as (_ & _ & sg & Hsg & _).
      discriminate.
  - intros x out H. rewrite H. discriminate.
  - intros H. apply serializeTransaction_InvalidLegacyV_iff
      in H as (type_ & _ & _ & H).
    apply serializeTransactionLegacy_InvalidLegacyV_iff
      in H as (_ & _ & sg & -> & H).
    apply legacyV_InvalidLegacyV_iff in H as (_ & Hv & _).
    eauto.
Qed.

(** *** The typed encoders *)

Ltac fields_inv H :=
  bind_inv H; apply Ok_inj in H;
  repeat match goal with
         | E : toHexOrEmpty _ = Ok _ |- _ => apply toHexOrEmpty_Ok_iff in E
         | E : call _ = Ok _ |- _ => apply call_Ok_iff in E
         end.

Lemma serializedTransactionEIP2930_Ok_iff
    (t : TransactionSerializable) (al : RecursiveArray)
    (signature : option Signature) (fields : list RecursiveArray) :
  serializedTransactionEIP2930 t al signature = Ok fields <->
  exists tail,
    toYParitySignatureArray t signature = Ok tail /\
    EIP2930Fields t al tail fields.
Proof.
  unfold serializedTransactionEIP2930, EIP2930Fields. split.
  - intros H. fields_inv H. eauto 15.
  - intros (tail & Htail & c & n & gp & g & vl
            & Hc & Hn & Hgp & Hg & Hvl & ->).
    apply toHexOrEmpty_Ok_iff in Hn, Hgp, Hg, Hvl.
    rewrite Hc, Hn, Hgp, Hg, Hvl, Htail. reflexivity.
Qed.

Lemma serializedTransactionEIP1559_Ok_iff
    (t : TransactionSerializable) (al : RecursiveArray)
    (signature : option Signature) (fields : list RecursiveArray) :
  serializedTransactionEIP1559 t al signature = Ok fields <->
  exists tail,
    toYParitySignatureArray t signature = Ok tail /\
    EIP1559Fields t al tail fields.
Proof.
  unfold serializedTransactionEIP1559, EIP1559Fields. split.
  - intros H. fields_inv H. eauto 15.
  - intros (tail & Htail & c & n & mp & mf & g & vl
            & Hc & Hn & Hmp & Hmf & Hg & Hvl & ->).
    apply toHexOrEmpty_Ok_iff in Hn, Hmp, Hmf, Hg, Hvl.
    rewrite Hc, Hn, Hmp, Hmf, Hg, Hvl, Htail. reflexivity.
Qed.

Lemma serializedTransactionEIP4844_Ok_iff
    (t : TransactionSerializable) (al : RecursiveArray)
    (signature : option Signature) (fields : list RecursiveArray) :
  serializedTransactionEIP4844 t al signature = Ok fields <->
  exists tail,
    toYParitySignatureArray t signature = Ok tail /\
    EIP4844Fields t al tail fields.
Proof.
  unfold serializedTransactionEIP4844, EIP4844Fields. split.
  - intros H. fields_inv H. eauto 20.
  - intros (tail & Htail & c & n & mp & mf & g & vl & mb
            & Hc & Hn & Hmp & Hmf & Hg & Hvl & Hmb & ->).
    apply toHexOrEmpty_Ok_iff in Hn, Hmp, Hmf, Hg, Hvl, Hmb.
    rewrite Hc, Hn, Hmp, Hmf, Hg, Hvl, Hmb, Htail. reflexivity.
Qed.

Lemma serializeTransactionEIP4844_Ok_iff
    (t : TransactionSerializable) (signature : option Signature) (out : Hex) :
  serializeTransactionEIP4844 t signature = Ok out <->
  exists al tail fields rlp,
    assertTransactionEIP4844 t = Returned tt /\
    serializeAccessList (accessList t) = Returned al /\
    toYParitySignatureArray t signature = Ok tail /\
    EIP4844Fields t al tail fields /\
    toRlp (blobEnvelope t fields) = Returned rlp /\
    out = concatHex ["0x03"; rlp].
Proof.
  unfold serializeTransactionEIP4844. split.
  - intros H. bind_inv H. apply Ok_inj in H. subst out.
    match goal with E : call (assertTransactionEIP4844 t) = Ok ?u |- _ =>
      apply call_Ok_iff in E; destruct u end.
    match goal with E : call (serializeAccessList _) = Ok _ |- _ =>
      apply call_Ok_iff in E end.
    match goal with E : serializedTransactionEIP4844 _ _ _ = Ok _ |- _ =>
      apply serializedTransactionEIP4844_Ok_iff in E as (tail & ? & ?) end.
    match goal with E : (if _ then _ else _) = Ok _ |- _ =>
      rename E into Hrlp end.
    do 4 eexists. repeat (split; [eassumption|]). split; [|reflexivity].
    unfold blobEnvelope. destruct (blobs t); cbn [defined] in Hrlp;
      apply call_Ok_iff in Hrlp; exact Hrlp.
  - intros (al & tail & fields & rlp & Hassert & Hal & Htail & Hfields
            & Hrlp & ->).
    assert (Hst : serializedTransactionEIP4844 t al signature = Ok fields)
      by (apply serializedTransactionEIP4844_Ok_iff; eauto).
    rewrite Hassert, Hal. cbn [call bind]. rewrite Hst. cbn [bind].
    unfold blobEnvelope in Hrlp.
    destruct (blobs t); cbn [defined ofHexArray]; rewrite Hrlp; reflexivity.
Qed.

(** C4.  A blob-carrying record is encoded as the list chain-id,
    nonce-or-empty, max-priority-fee-or-empty, max-fee-or-empty,
    gas-limit-or-empty, recipient-or-empty, value-or-empty,
    data-or-empty, encoded access list, max-fee-per-blob-gas-or-empty,
    the list of blob versioned hashes, then the signature tail; with
    raw blob payloads the encoded value is the four-element list of
    that field list, the blobs, the commitments and the proofs, without
    them the field list alone; [0x03] is put in front in both cases. *)
Theorem eip4844_field_list
    (t : TransactionSerializable) (signature : option Signature) :
  (forall out,
      serializeTransactionEIP4844 t signature = Ok out <->
      exists al tail fields rlp,
        assertTransactionEIP4844 t = Returned tt /\
        serializeAccessList (accessList t) = Returned al /\
        toYParitySignatureArray t signature = Ok tail /\
        EIP4844Fields t al tail fields /\
        toRlp (blobEnvelope t fields) = Returned rlp /\
        out = concatHex ["0x03"; rlp]) /\
  (forall fields blobs_,
      blobs t = Some blobs_ ->
      blobEnvelope t fields =
      RArray [ RArray fields; RArray (map RHex blobs_);
               ofHexArray (kzgCommitments t); ofHexArray (kzgProofs t) ]) /\
  (forall fields, blobs t = None -> blobEnvelope t fields = RArray fields) /\
  (forall hashes,
      blobVersionedHashes t = Some hashes ->
      ofHexArray (blobVersionedHashes t) = RArray (map RHex hashes)) /\
  (forall e,
      assertTransactionEIP4844 t = Raised e ->
      serializeTransactionEIP4844 t signature = Throw (External e)).
Proof.
  split; [|split; [|split; [|split]]].
  - intros out. apply serializeTransactionEIP4844_Ok_iff.
  - intros fields blobs_ Hb. unfold blobEnvelope. rewrite Hb. reflexivity.
  - intros fields Hb. unfold blobEnvelope. rewrite Hb. reflexivity.
  - intros hashes Hh. rewrite Hh. reflexivity.
  - intros e He. unfold serializeTransactionEIP4844. rewrite He. reflexivity.
Qed.

Lemma serializeTransactionEIP1559_Ok_iff
    (t : TransactionSerializable) (signature : option Signature) (out : Hex) :
  serializeTransactionEIP1559 t signature = Ok out <->
  exists al tail fields rlp,
    assertTransactionEIP1559 t = Returned tt /\
    serializeAccessList (accessList t) = Returned al /\
    toYParitySignatureArray t signature = Ok tail /\
    EIP1559Fields t al tail fields /\
    toRlp (RArray fields) = Returned rlp /\
    out = concatHex ["0x02"; rlp].
Proof.
  unfold serializeTransactionEIP1559. split.
  - intros H. bind_inv H. apply Ok_inj in H. subst out.
    match goal with E : call (assertTransactionEIP1559 t) = Ok ?u |- _ =>
      apply call_Ok_iff in E; destruct u end.
    match goal with E : serializedTransactionEIP1559 _ _ _ = Ok _ |- _ =>
      apply serializedTransactionEIP1559_Ok_iff in E as (tail & ? & ?) end.
    repeat match goal with E : call _ = Ok _ |- _ =>
      apply call_Ok_iff in E end.
    do 4 eexists. repeat (split; [eassumption|]). reflexivity.
  - intros (al & tail & fields & rlp & Hassert & Hal & Htail & Hfields
            & Hrlp & ->).
    assert (Hst : serializedTransactionEIP1559 t al signature = Ok fields)
      by (apply serializedTransactionEIP1559_Ok_iff; eauto).
    rewrite Hassert, Hal. cbn [call bind]. rewrite Hst. cbn [bind].
    rewrite Hrlp. reflexivity.
Qed.

(** C5.  A priority-fee record is validated first and then encoded as
    the list chain-id, nonce-or-empty, max-priority-fee-or-empty,
    max-fee-or-empty, gas-limit-or-empty, recipient-or-empty,
    value-or-empty, data-or-empty, encoded access list, then the
    signature tail; [0x02] is put in front of what [toRlp] returns. *)
Theorem eip1559_field_list
    (t : TransactionSerializable) (signature : option Signature) :
  (forall out,
      serializeTransactionEIP1559 t signature = Ok out <->
      exists al tail fields rlp,
        assertTransactionEIP1559 t = Returned tt /\
        serializeAccessList (accessList t) = Returned al /\
        toYParitySignatureArray t signature = Ok tail /\
        EIP1559Fields t al tail fields /\
        toRlp (RArray fields) = Returned rlp /\
        out = concatHex ["0x02"; rlp]) /\
  (forall e,
      assertTransactionEIP1559 t = Raised e ->
      serializeTransactionEIP1559 t signature = Throw (External e)).
Proof.
  split.
  - intros out. apply serializeTransactionEIP1559_Ok_iff.
  - intros e He. unfold serializeTransactionEIP1559. rewrite He. reflexivity.
Qed.

Lemma serializeTransactionEIP2930_Ok_iff
    (t : TransactionSerializable) (signature : option Signature) (out : Hex) :
  serializeTransactionEIP2930 t signature = Ok out <->
  exists al tail fields rlp,
    assertTransactionEIP2930 t = Returned tt /\
    serializeAccessList (accessList t) = Returned al /\
    toYParitySignatureArray t signature = Ok tail /\
    EIP2930Fields t al tail fields /\
    toRlp (RArray fields) = Returned rlp /\
    out = concatHex ["0x01"; rlp].
Proof.
  unfold serializeTransactionEIP2930. split.
  - intros H. bind_inv H. apply Ok_inj in H. subst out.
    match goal with E : call (assertTransactionEIP2930 t) = Ok ?u |- _ =>
      apply call_Ok_iff in E; destruct u end.
    match goal with E : serializedTransactionEIP2930 _ _ _ = Ok _ |- _ =>
      apply serializedTransactionEIP2930_Ok_iff in E as (tail & ? & ?) end.
    repeat match goal with E : call _ = Ok _ |- _ =>
      apply call_Ok_iff in E end.
    do 4 eexists. repeat (split; [eassumption|]). reflexivity.
  - intros (al & tail & fields & rlp & Hassert & Hal & Htail & Hfields
            & Hrlp & ->).
    assert (Hst : serializedTransactionEIP2930 t al signature = Ok fields)
      by (apply serializedTransactionEIP2930_Ok_iff; eauto).
    rewrite Hassert, Hal. cbn [call bind]. rewrite Hst. cbn [bind].
    rewrite Hrlp. reflexivity.
Qed.

(** C6.  An access-list record is validated first and then encoded as
    the list chain-id, nonce-or-empty, gas-price-or-empty,
    gas-limit-or-empty, recipient-or-empty, value-or-empty,
    data-or-empty, encoded access list, then the signature tail, which
    may be empty; [0x01] is put in front of what [toRlp] returns. *)
Theorem eip2930_field_list
    (t : TransactionSerializable) (signature : option Signature) :
  (forall out,
      serializeTransactionEIP2930 t signature = Ok out <->
      exists al tail fields rlp,
        assertTransactionEIP2930 t = Returned tt /\
        serializeAccessList (accessList t) = Returned al /\
        toYParitySignatureArray t signature = Ok tail /\
        EIP2930Fields t al tail fields /\
        toRlp (RArray fields) = Returned rlp /\
        out = concatHex ["0x01"; rlp]) /\
  (forall e,
      assertTransactionEIP2930 t = Raised e ->
      serializeTransactionEIP2930 t signature = Throw (External e)).
Proof.
  split.
  - intros out. apply serializeTransactionEIP2930_Ok_iff.
  - intros e He. unfold serializeTransactionEIP2930. rewrite He. reflexivity.
Qed.

(** *** Zero and absent *)

Lemma toHexOrEmpty_sameOrEmpty (x y : option Z) :
  sameOrEmpty x y -> toHexOrEmpty x = toHexOrEmpty y.
Proof.
  unfold toHexOrEmpty. intros [-> | [Hx Hy]]; [reflexivity|].
  rewrite Hx, Hy. reflexivity.
Qed.

Lemma toYParitySignatureArray_ownSignature
    (t t' : TransactionSerializable) (signature : option Signature) :
  ownSignature t = ownSignature t' ->
  toYParitySignatureArray t signature = toYParitySignatureArray t' signature.
Proof. unfold toYParitySignatureArray. intros ->. reflexivity. Qed.

Lemma bind_ext {A B} (m : Result A) (k k' : A -> Result B) :
  (forall a, k a = k' a) -> bind m k = bind m k'.
Proof. intros H. destruct m; simpl; auto. Qed.

(** C8.  When two records differ only in that optional numeric fields
    (nonce, value, gas limit, gas price, max fee, max priority fee, max
    fee per blob gas) are zero in one and absent in the other, every
    encoder builds the same field list for both and returns the same
    bytes for both, the imported validation of that encoder giving the
    same verdict on both; so does the dispatcher when the imported type
    resolution does not tell them apart either.  An absent recipient and absent data are the
    placeholder, and the base field list has 6, 8, 9 and 11 entries
    for the legacy, access-list, priority-fee and blob variants. *)
Theorem zero_is_absent
    (t t' : TransactionSerializable) (signature : option Signature) :
  SameUpToZero t t' ->
  (serializedTransactionLegacy t = serializedTransactionLegacy t' /\
   forall al,
     serializedTransactionEIP2930 t al signature
       = serializedTransactionEIP2930 t' al signature /\
     serializedTransactionEIP1559 t al signature
       = serializedTransactionEIP1559 t' al signature /\
     serializedTransactionEIP4844 t al signature
       = serializedTransactionEIP4844 t' al signature) /\
  ((assertTransactionLegacy t = assertTransactionLegacy t' ->
    serializeTransactionLegacy t signature
      = serializeTransactionLegacy t' signature) /\
   (assertTransactionEIP2930 t = assertTransactionEIP2930 t' ->
    serializeTransactionEIP2930 t signature
      = serializeTransactionEIP2930 t' signature) /\
   (assertTransactionEIP1559 t = assertTransactionEIP1559 t' ->
    serializeTransactionEIP1559 t signature
      = serializeTransactionEIP1559 t' signature) /\
   (assertTransactionEIP4844 t = assertTransactionEIP4844 t' ->
    serializeTransactionEIP4844 t signature
      = serializeTransactionEIP4844 t' signature) /\
   (sameVerdicts t t' ->
    serializeTransaction t signature = serializeTransaction t' signature)) /\
  ((to t = Undefined \/ to t = Null -> nullish (to t) "0x" = "0x") /\
   (data t = None -> nullishOpt (data t) "0x" = "0x")) /\
  (forall base,
      serializedTransactionLegacy t = Ok base -> List.length base = 6%nat) /\
  (forall al fields,
      serializedTransactionEIP2930 t al signature = Ok fields ->
      exists tail,
        toYParitySignatureArray t signature = Ok tail /\
        List.length fields = (8 + List.length tail)%nat) /\
  (forall al fields,
      serializedTransactionEIP1559 t al signature = Ok fields ->
      exists tail,
        toYParitySignatureArray t signature = Ok tail /\
        List.length fields = (9 + List.length tail)%nat) /\
  (forall al fields,
      serializedTransactionEIP4844 t al signature = Ok fields ->
      exists tail,
        toYParitySignatureArray t signature = Ok tail /\
        List.length fields = (11 + List.length tail)%nat).
Proof.
  intros [Hty Hc Hn Hg Hgp Hmf Hmp Hmb Hto Hv Hd Hal Hbh Hb Hkc Hkp Hs].
  apply toHexOrEmpty_sameOrEmpty in Hn, Hg, Hgp, Hmf, Hmp, Hmb, Hv.
  pose proof (toYParitySignatureArray_ownSignature t t' signature Hs) as Htail.
  assert (HL : serializedTransactionLegacy t = serializedTransactionLegacy t').
  { unfold serializedTransactionLegacy.
    rewrite Hn, Hgp, Hg, Hv, Hto, Hd. reflexivity. }
  assert (H1 : forall al, serializedTransactionEIP2930 t al signature
                          = serializedTransactionEIP2930 t' al signature).
  { intros al. unfold serializedTransactionEIP2930.
    rewrite Hc, Hn, Hgp, Hg, Hv, Hto, Hd, Htail. reflexivity. }
  assert (H2 : forall al, serializedTransactionEIP1559 t al signature
                          = serializedTransactionEIP1559 t' al signature).
  { intros al. unfold serializedTransactionEIP1559.
    rewrite Hc, Hn, Hmp, Hmf, Hg, Hv, Hto, Hd, Htail. reflexivity. }
  assert (H3 : forall al, serializedTransactionEIP4844 t al signature
                          = serializedTransactionEIP4844 t' al signature).
  { intros al. unfold serializedTransactionEIP4844.
    rewrite Hc, Hn, Hmp, Hmf, Hg, Hv, Hmb, Hto, Hd, Hbh, Htail. reflexivity. }
  split; [auto|]. split; [|split; [|split; [|split; [|split]]]].
  - assert (EL : assertTransactionLegacy t = assertTransactionLegacy t' ->
                 serializeTransactionLegacy t signature
                 = serializeTransactionLegacy t' signature).
    { intros VL. unfold serializeTransactionLegacy.
      rewrite VL, HL, Hc. reflexivity. }
    assert (E1 : assertTransactionEIP2930 t = assertTransactionEIP2930 t' ->
                 serializeTransactionEIP2930 t signature
                 = serializeTransactionEIP2930 t' signature).
    { intros V1. unfold serializeTransactionEIP2930. rewrite V1, Hal.
      apply bind_ext. intros _. apply bind_ext. intros al.
      rewrite H1. reflexivity. }
    assert (E2 : assertTransactionEIP1559 t = assertTransactionEIP1559 t' ->
                 serializeTransactionEIP1559 t signature
                 = serializeTransactionEIP1559 t' signature).
    { intros V2. unfold serializeTransactionEIP1559. rewrite V2, Hal.
      apply bind_ext. intros _. apply bind_ext. intros al.
      rewrite H2. reflexivity. }
    assert (E3 : assertTransactionEIP4844 t = assertTransactionEIP4844 t' ->
                 serializeTransactionEIP4844 t signature
                 = serializeTransactionEIP4844 t' signature).
    { intros V3. unfold serializeTransactionEIP4844.
      rewrite V3, Hal, Hb, Hkc, Hkp.
      apply bind_ext. intros _. apply bind_ext. intros al.
      rewrite H3. reflexivity. }
    repeat split; try assumption.
    intros (Vty & VL & V1 & V2 & V3).
    unfold serializeTransaction.
    rewrite Vty, (EL VL), (E1 V1), (E2 V2), (E3 V3). reflexivity.
  - split.
    + intros [-> | ->]; reflexivity.
    + intros ->. reflexivity.
  - intros base H. apply serializedTransactionLegacy_Ok_iff in H
      as (n & gp & g & vl & _ & _ & _ & _ & ->). reflexivity.
  - intros al fields H. apply serializedTransactionEIP2930_Ok_iff in H
      as (tail & Ht & c & n & gp & g & vl & _ & _ & _ & _ & _ & ->).
    exists tail. split; [exact Ht|]. reflexivity.
  - intros al fields H. apply serializedTransactionEIP1559_Ok_iff in H
      as (tail & Ht & c & n & mp & mf & g & vl & _ & _ & _ & _ & _ & _ & ->).
    exists tail. split; [exact Ht|]. reflexivity.
  - intros al fields H. apply serializedTransactionEIP4844_Ok_iff in H
      as (tail & Ht & c & n & mp & mf & g & vl & mb
          & _ & _ & _ & _ & _ & _ & _ & ->).
    exists tail. split; [exact Ht|]. reflexivity.
Qed.

(** *** An explicit signature replaces the record *)

(** C9.  A supplied signature object is the only source of [r], [s],
    [v] and [yParity]: the tail does not depend on the record, and
    when the object has no [r] the tail is empty whatever signature
    the record carries, so that each typed encoder returns the
    encoding of the base fields alone. *)
Theorem explicit_signature_replaces_record
    (t : TransactionSerializable) (sg : Signature) :
  r sg = None ->
  toYParitySignatureArray t (Some sg) = Ok [] /\
  (forall sg' t',
      signatureSource t (Some sg') = sg' /\
      toYParitySignatureArray t (Some sg')
        = toYParitySignatureArray t' (Some sg')) /\
  (forall out,
      serializeTransactionEIP2930 t (Some sg) = Ok out <->
      exists al fields rlp,
        assertTransactionEIP2930 t = Returned tt /\
        serializeAccessList (accessList t) = Returned al /\
        EIP2930Fields t al [] fields /\
        toRlp (RArray fields) = Returned rlp /\
        out = concatHex ["0x01"; rlp]) /\
  (forall out,
      serializeTransactionEIP1559 t (Some sg) = Ok out <->
      exists al fields rlp,
        assertTransactionEIP1559 t = Returned tt /\
        serializeAccessList (accessList t) = Returned al /\
        EIP1559Fields t al [] fields /\
        toRlp (RArray fields) = Returned rlp /\
        out = concatHex ["0x02"; rlp]) /\
  (forall out,
      serializeTransactionEIP4844 t (Some sg) = Ok out <->
      exists al fields rlp,
        assertTransactionEIP4844 t = Returned tt /\
        serializeAccessList (accessList t) = Returned al /\
        EIP4844Fields t al [] fields /\
        toRlp (blobEnvelope t fields) = Returned rlp /\
        out = concatHex ["0x03"; rlp]).
Proof.
  intros Hr.
  assert (Hempty : toYParitySignatureArray t (Some sg) = Ok []).
  { unfold toYParitySignatureArray. cbn [nullishOpt]. rewrite Hr.
    reflexivity. }
  split; [exact Hempty|]. split; [|split; [|split]].
  - intros sg' t'. split; reflexivity.
  - intros out. rewrite serializeTransactionEIP2930_Ok_iff. split.
    + intros (al & tail & fields & rlp & Ha & Hal & Htail & Hrest).
      rewrite Hempty in Htail. apply Ok_inj in Htail. subst tail. eauto 10.
    + intros (al & fields & rlp & Ha & Hal & Hrest). eauto 10.
  - intros out. rewrite serializeTransactionEIP1559_Ok_iff. split.
    + intros (al & tail & fields & rlp & Ha & Hal & Htail & Hrest).
      rewrite Hempty in Htail. apply Ok_inj in Htail. subst tail. eauto 10.
    + intros (al & fields & rlp & Ha & Hal & Hrest). eauto 10.
  - intros out. rewrite serializeTransactionEIP4844_Ok_iff. split.
    + intros (al & tail & fields & rlp & Ha & Hal & Htail & Hrest).
      rewrite Hempty in Htail. apply Ok_inj in Htail. subst tail. eauto 10.
    + intros (al & fields & rlp & Ha & Hal & Hrest). eauto 10.
Qed.

(** *** The dispatcher *)

(** C10.  Once the type is resolved, [serializeTransaction] is the
    encoder of that type: the priority-fee, access-list and blob
    encoders for ['eip1559'], ['eip2930'] and ['eip4844'], and the
    legacy encoder for every other string.  Its outcome is always the
    outcome of one of the four encoders; the cascade has no error of
    its own. *)
Theorem dispatch_defaults_to_legacy
    (t : TransactionSerializable) (signature : option Signature)
    (type_ : string) :
  getTransactionType t = Returned type_ ->
  (legacyRoute type_ ->
   serializeTransaction t signature = serializeTransactionLegacy t signature) /\
  (type_ = "eip1559" ->
   serializeTransaction t signature = serializeTransactionEIP1559 t signature) /\
  (type_ = "eip2930" ->
   serializeTransaction t signature = serializeTransactionEIP2930 t signature) /\
  (type_ = "eip4844" ->
   serializeTransaction t signature = serializeTransactionEIP4844 t signature) /\
  (serializeTransaction t signature = serializeTransactionEIP1559 t signature \/
   serializeTransaction t signature = serializeTransactionEIP2930 t signature \/
   serializeTransaction t signature = serializeTransactionEIP4844 t signature \/
   serializeTransaction t signature = serializeTransactionLegacy t signature).
Proof.
  intros Htype. unfold serializeTransaction, legacyRoute.
  rewrite Htype. cbn [call bind].
  split; [|split; [|split; [|split]]].
  - intros (N1 & N2 & N3). apply String.eqb_neq in N1, N2, N3.
    rewrite N1, N2, N3. reflexivity.
  - intros ->. reflexivity.
  - intros ->. reflexivity.
  - intros ->. reflexivity.
  - destruct (type_ =? "eip1559")%string; [auto|].
    destruct (type_ =? "eip2930")%string; [auto|].
    destruct (type_ =? "eip4844")%string; auto.
Qed.

End Properties.

(** ** Further properties of the encoders *)

Section Legacy.

Context {C : Collaborators}.

(** *** The recovery value *)

(** X1.  Without a chain id above zero, the recovery value the legacy
    encoder writes is 27, 28 or at least 37, never 35 or 36, and the
    computation is idempotent: applied to the value it returned, it
    returns that value again. *)
Theorem legacyV_inferred_range_idempotent
    (chainId_ : Z) (sg : Signature) (sv w : Z) :
  chainId_ <= 0 ->
  v sg = Some sv ->
  legacyV chainId_ sg = Ok w ->
  (w = 27 \/ w = 28 \/ 37 <= w) /\
  legacyV chainId_ (withV (Some w) sg) = Ok w.
Proof.
  intros Hc Hv. unfold legacyV. cbn [v withV]. rewrite Hv.
  destruct (Z.ltb_spec 0 chainId_) as [|_]; [lia|]. cbv zeta.
  destruct (Z.leb_spec 35 sv) as [H35|H35].
  - rewrite Z.quot_div_nonneg by lia.
    destruct (Z.ltb_spec 0 ((sv - 35) / 2)) as [Hinf|Hinf].
    + intros H%Ok_inj. subst w.
      assert (37 <= sv) by (Z.div_mod_to_equations; lia).
      split; [lia|].
      destruct (Z.leb_spec 35 sv) as [_|]; [|lia].
      rewrite Z.quot_div_nonneg by lia.
      destruct (Z.ltb_spec 0 ((sv - 35) / 2)) as [_|]; [reflexivity|lia].
    + destruct (Z.eqb_spec sv 35) as [->|N35];
        intros H%Ok_inj; subst w; (split; [lia|reflexivity]).
  - destruct (Z.eqb_spec sv 27) as [->|N27]; cbn [negb].
    + intros H%Ok_inj. subst w. split; [lia|reflexivity].
    + replace (27 + 1) with 28 by reflexivity.
      destruct (Z.eqb_spec sv 28) as [->|N28]; cbn [negb]; [|discriminate].
      intros H%Ok_inj. subst w. split; [lia|reflexivity].
Qed.

Lemma legacyV_explicit (c : Z) (sg : Signature) (sv : Z) :
  0 < c -> v sg = Some sv ->
  legacyV c sg = Ok (c * 2 + (35 + sv - 27)).
Proof.
  intros Hc Hv. unfold legacyV. rewrite Hv.
  destruct (Z.ltb_spec 0 c) as [_|]; [reflexivity|lia].
Qed.

Lemma legacyV_inferred (c : Z) (sg : Signature) (w : Z) :
  c <= 0 -> v sg = Some w -> 37 <= w -> legacyV c sg = Ok w.
Proof.
  intros Hc Hv Hw. unfold legacyV. rewrite Hv.
  destruct (Z.ltb_spec 0 c) as [|_]; [lia|]. cbv zeta.
  destruct (Z.leb_spec 35 w) as [_|]; [|lia].
  rewrite Z.quot_div_nonneg by lia.
  destruct (Z.ltb_spec 0 ((w - 35) / 2)) as [_|H]; [reflexivity|].
  exfalso. revert H. Z.div_mod_to_equations. lia.
Qed.

(** X2.  For a legacy record with chain id [c > 0] and a signature
    whose [v] is 27 or 28, the recovery value written is
    [w = c*2 + 35 + (v - 27)]; the chain id inferred from [w] is [c]
    and its parity is [v - 27]; and the same record without its chain
    id, signed with [w] in place of [v], is serialized to the same
    bytes, provided the imported validation accepts both alike. *)
Theorem eip155_explicit_matches_inferred
    (t : TransactionSerializable) (sg : Signature) (c sv : Z) :
  chainId t = Some c -> 0 < c ->
  v sg = Some sv -> sv = 27 \/ sv = 28 ->
  legacyV (nullishOpt (chainId t) 0) sg = Ok (c * 2 + 35 + (sv - 27)) /\
  Z.quot (c * 2 + 35 + (sv - 27) - 35) 2 = c /\
  Z.rem (c * 2 + 35 + (sv - 27) - 35) 2 = sv - 27 /\
  legacyV (nullishOpt (chainId (withChainId None t)) 0)
          (withV (Some (c * 2 + 35 + (sv - 27))) sg)
    = Ok (c * 2 + 35 + (sv - 27)) /\
  (assertTransactionLegacy (withChainId None t) = assertTransactionLegacy t ->
   serializeTransactionLegacy (withChainId None t)
     (Some (withV (Some (c * 2 + 35 + (sv - 27))) sg))
   = serializeTransactionLegacy t (Some sg)).
Proof.
  intros Hc Hpos Hv Hsv. rewrite Hc. cbn [nullishOpt withChainId chainId].
  set (w := c * 2 + 35 + (sv - 27)).
  assert (Hw : 37 <= w) by (unfold w; lia).
  assert (E1 : legacyV c sg = Ok w).
  { rewrite (legacyV_explicit c sg sv Hpos Hv). f_equal. unfold w. lia. }
  assert (E2 : legacyV 0 (withV (Some w) sg) = Ok w).
  { apply legacyV_inferred; [lia | reflexivity | exact Hw]. }
  split; [exact E1|]. split; [|split; [|split; [exact E2|]]].
  - rewrite Z.quot_div_nonneg by lia. unfold w.
    Z.div_mod_to_equations. lia.
  - rewrite Z.rem_mod_nonneg by lia. unfold w.
    Z.div_mod_to_equations. lia.
  - intros Hassert. unfold serializeTransactionLegacy. cbv zeta.
    rewrite Hassert, Hc.
    change (serializedTransactionLegacy (withChainId None t))
      with (serializedTransactionLegacy t).
    cbn [nullishOpt withChainId chainId]. rewrite E1, E2. reflexivity.
Qed.

(** X9.  The legacy encoder treats a chain id of zero, or below, as
    an absent one: with the same signature argument the record and the
    record without its chain id are serialized alike, the imported
    validation accepting both alike.  In particular no chain id is
    appended to the unsigned list. *)
Theorem legacy_zero_chain_id_is_absent
    (t : TransactionSerializable) (c : Z) (signature : option Signature) :
  chainId t = Some c -> c <= 0 ->
  assertTransactionLegacy (withChainId None t) = assertTransactionLegacy t ->
  serializeTransactionLegacy t signature
    = serializeTransactionLegacy (withChainId None t) signature /\
  (forall out,
      serializeTransactionLegacy t None = Ok out ->
      exists base, LegacyBase t base /\ toRlp (RArray base) = Returned out).
Proof.
  intros Hc Hle Hassert.
  assert (E : forall sg, legacyV c sg = legacyV 0 sg).
  { intros sg. unfold legacyV.
    destruct (Z.ltb_spec 0 c) as [|_]; [lia|]. reflexivity. }
  split.
  - unfold serializeTransactionLegacy. cbv zeta. rewrite Hassert, Hc.
    change (serializedTransactionLegacy (withChainId None t))
      with (serializedTransactionLegacy t).
    cbn [nullishOpt withChainId chainId].
    destruct (Z.ltb_spec 0 c) as [|_]; [lia|].
    destruct signature as [sg|]; [rewrite E|]; reflexivity.
  - intros out H. apply serializeTransactionLegacy_Ok_iff in H
      as (base & _ & Hbase & H).
    rewrite Hc in H. cbn [nullishOpt] in H.
    destruct (Z.ltb_spec 0 c) as [|_]; [lia|]. eauto.
Qed.

End Legacy.

Section OwnErrors.

Context {C : Collaborators}.

(** *** Which errors are the encoders' own *)












End OwnErrors.

Section SignatureArgument.

Context {C : Collaborators}.

(** *** What the signature argument changes *)

Lemma sameTypedSerialization_of_tail
    (t : TransactionSerializable) (signature signature' : option Signature) :
  toYParitySignatureArray t signature = toYParitySignatureArray t signature' ->
  sameTypedSerialization t signature signature'.
Proof.
  intros H. unfold sameTypedSerialization.
  unfold serializeTransactionEIP2930, serializedTransactionEIP2930,
    serializeTransactionEIP1559, serializedTransactionEIP1559,
    serializeTransactionEIP4844, serializedTransactionEIP4844.
  rewrite H. repeat split; reflexivity.
Qed.

Lemma serializeTransaction_typed_same
    (t : TransactionSerializable) (signature signature' : option Signature)
    (type_ : string) :
  sameTypedSerialization t signature signature' ->
  getTransactionType t = Returned type_ -> typedRoute type_ ->
  serializeTransaction t signature = serializeTransaction t signature'.
Proof.
  intros (_ & E1 & E2 & E3) Htype Hroute. unfold serializeTransaction.
  rewrite Htype. cbn [call bind].
  destruct Hroute as [-> | [-> | ->]]; cbn [String.eqb Ascii.eqb Bool.eqb];
    assumption.
Qed.

(** X4.  In the typed encoders a recovery value of 27 is the same as 0
    and a recovery value of 28 is the same as 1: replacing one by the
    other in the signature argument changes neither the tail nor the
    bytes of the three typed encoders, nor those of
    [serializeTransaction] for a record resolved to a typed variant. *)
Theorem legacy_style_v_is_parity
    (t : TransactionSerializable) (sg : Signature) :
  sameTypedSerialization t (Some (withV (Some 27) sg))
                           (Some (withV (Some 0) sg)) /\
  sameTypedSerialization t (Some (withV (Some 28) sg))
                           (Some (withV (Some 1) sg)) /\
  (forall type_,
      getTransactionType t = Returned type_ -> typedRoute type_ ->
      serializeTransaction t (Some (withV (Some 27) sg))
        = serializeTransaction t (Some (withV (Some 0) sg)) /\
      serializeTransaction t (Some (withV (Some 28) sg))
        = serializeTransaction t (Some (withV (Some 1) sg))).
Proof.
  assert (H27 : sameTypedSerialization t (Some (withV (Some 27) sg))
                                         (Some (withV (Some 0) sg))).
  { apply sameTypedSerialization_of_tail.
    unfold toYParitySignatureArray. cbn [nullishOpt withV r s v yParity].
    destruct (r sg), (s sg), (yParity sg) as [[n|hy]|]; reflexivity. }
  assert (H28 : sameTypedSerialization t (Some (withV (Some 28) sg))
                                         (Some (withV (Some 1) sg))).
  { apply sameTypedSerialization_of_tail.
    unfold toYParitySignatureArray. cbn [nullishOpt withV r s v yParity].
    destruct (r sg), (s sg), (yParity sg) as [[n|hy]|]; reflexivity. }
  split; [exact H27|]. split; [exact H28|].
  intros type_ Htype Hroute.
  split; eapply serializeTransaction_typed_same; eassumption.
Qed.

(** X5.  A numeric [yParity] takes precedence over [v]: with one, the
    tail and the typed encodings are the same whatever [v] is, even
    undefined.  A [yParity] that is a hex string is never encoded: two
    signature objects that differ only in that string give the same
    tail and the same typed encodings. *)
Theorem yParity_precedence
    (t : TransactionSerializable) (sg : Signature) :
  (forall n x,
      yParity sg = Some (YNumber n) ->
      sameTypedSerialization t (Some (withV x sg)) (Some sg)) /\
  (forall h h',
      sameTypedSerialization t (Some (withYParity (Some (YHex h)) sg))
                               (Some (withYParity (Some (YHex h')) sg))).
Proof.
  split.
  - intros n x Hy. apply sameTypedSerialization_of_tail.
    unfold toYParitySignatureArray. cbn [nullishOpt withV r s v yParity].
    rewrite Hy. destruct (r sg), (s sg); try reflexivity.
    rewrite !andb_false_r. reflexivity.
  - intros h h'. apply sameTypedSerialization_of_tail.
    unfold toYParitySignatureArray. cbn [nullishOpt withYParity r s v yParity].
    reflexivity.
Qed.

(** X6.  The legacy encoder never reads the signature the record
    carries: replacing the record's own [r], [s], [v] and [yParity]
    changes neither its base fields nor, the imported validation
    accepting both records alike, its result for any signature
    argument.  The typed encoders do read them when no signature
    argument is given. *)
Theorem legacy_ignores_own_signature
    (t : TransactionSerializable) (own : Signature)
    (signature : option Signature) :
  serializedTransactionLegacy (withOwnSignature own t)
    = serializedTransactionLegacy t /\
  (assertTransactionLegacy (withOwnSignature own t)
     = assertTransactionLegacy t ->
   serializeTransactionLegacy (withOwnSignature own t) signature
     = serializeTransactionLegacy t signature) /\
  toYParitySignatureArray (withOwnSignature own t) None
    = toYParitySignatureArray t (Some own).
Proof.
  split; [reflexivity|]. split; [|reflexivity].
  intros H. unfold serializeTransactionLegacy. rewrite H. reflexivity.
Qed.

(** X7.  Without raw blob payloads the blob encoder never reads the
    commitments and the proofs: replacing them changes nothing in its
    result, the imported validation accepting both records alike. *)
Theorem sidecar_ignored_without_blobs
    (t : TransactionSerializable) (commitments proofs : option (list Hex))
    (signature : option Signature) :
  blobs t = None ->
  assertTransactionEIP4844 (withSidecar commitments proofs t)
    = assertTransactionEIP4844 t ->
  serializeTransactionEIP4844 (withSidecar commitments proofs t) signature
    = serializeTransactionEIP4844 t signature.
Proof.
  intros Hb Hassert. unfold serializeTransactionEIP4844.
  rewrite Hassert. cbn [withSidecar accessList blobs kzgCommitments kzgProofs].
  rewrite Hb. cbn [defined]. reflexivity.
Qed.

Lemma app_nil_fields (base tail : list RecursiveArray) :
  base ++ tail = (base ++ []) ++ tail.
Proof. rewrite app_nil_r. reflexivity. Qed.

(** X8.  Signing only appends: the field list a typed encoder builds
    under a signature argument is the list it builds under an empty
    signature object (8, 9 or 11 base fields, whatever signature the
    record carries) followed by the signature tail. *)
Theorem typed_signing_appends
    (t : TransactionSerializable) (al : RecursiveArray)
    (signature : option Signature) (fields : list RecursiveArray) :
  (serializedTransactionEIP2930 t al signature = Ok fields <->
   exists base tail,
     serializedTransactionEIP2930 t al (Some noSignature) = Ok base /\
     toYParitySignatureArray t signature = Ok tail /\
     List.length base = 8%nat /\ fields = base ++ tail) /\
  (serializedTransactionEIP1559 t al signature = Ok fields <->
   exists base tail,
     serializedTransactionEIP1559 t al (Some noSignature) = Ok base /\
     toYParitySignatureArray t signature = Ok tail /\
     List.length base = 9%nat /\ fields = base ++ tail) /\
  (serializedTransactionEIP4844 t al signature = Ok fields <->
   exists base tail,
     serializedTransactionEIP4844 t al (Some noSignature) = Ok base /\
     toYParitySignatureArray t signature = Ok tail /\
     List.length base = 11%nat /\ fields = base ++ tail).
Proof.
  assert (Hnone : toYParitySignatureArray t (Some noSignature) = Ok [])
    by reflexivity.
  split; [|split].
  - rewrite serializedTransactionEIP2930_Ok_iff. split.
    + intros (tail & Htail & c & n & gp & g & vl
              & Hc & Hn & Hgp & Hg & Hvl & ->).
      eexists _, tail. split; [|split; [exact Htail|split]].
      * apply serializedTransactionEIP2930_Ok_iff. exists [].
        split; [exact Hnone|]. unfold EIP2930Fields. eauto 12.
      * reflexivity.
      * apply app_nil_fields.
    + intros (base & tail & Hbase & Htail & _ & ->).
      apply serializedTransactionEIP2930_Ok_iff in Hbase
        as (tail0 & Htail0 & c & n & gp & g & vl
            & Hc & Hn & Hgp & Hg & Hvl & ->).
      rewrite Hnone in Htail0. apply Ok_inj in Htail0. subst tail0.
      exists tail. split; [exact Htail|]. unfold EIP2930Fields.
      rewrite <- app_nil_fields. eauto 12.
  - rewrite serializedTransactionEIP1559_Ok_iff. split.
    + intros (tail & Htail & c & n & mp & mf & g & vl
              & Hc & Hn & Hmp & Hmf & Hg & Hvl & ->).
      eexists _, tail. split; [|split; [exact Htail|split]].
      * apply serializedTransactionEIP1559_Ok_iff. exists [].
        split; [exact Hnone|]. unfold EIP1559Fields. eauto 14.
      * reflexivity.
      * apply app_nil_fields.
    + intros (base & tail & Hbase & Htail & _ & ->).
      apply serializedTransactionEIP1559_Ok_iff in Hbase
        as (tail0 & Htail0 & c & n & mp & mf & g & vl
            & Hc & Hn & Hmp & Hmf & Hg & Hvl & ->).
      rewrite Hnone in Htail0. apply Ok_inj in Htail0. subst tail0.
      exists tail. split; [exact Htail|]. unfold EIP1559Fields.
      rewrite <- app_nil_fields. eauto 14.
  - rewrite serializedTransactionEIP4844_Ok_iff. split.
    + intros (tail & Htail & c & n & mp & mf & g & vl & mb
              & Hc & Hn & Hmp & Hmf & Hg & Hvl & Hmb & ->).
      eexists _, tail. split; [|split; [exact Htail|split]].
      * apply serializedTransactionEIP4844_Ok_iff. exists [].
        split; [exact Hnone|]. unfold EIP4844Fields. eauto 16.
      * reflexivity.
      * apply app_nil_fields.
    + intros (base & tail & Hbase & Htail & _ & ->).
      apply serializedTransactionEIP4844_Ok_iff in Hbase
        as (tail0 & Htail0 & c & n & mp & mf & g & vl & mb
            & Hc & Hn & Hmp & Hmf & Hg & Hvl & Hmb & ->).
      rewrite Hnone in Htail0. apply Ok_inj in Htail0. subst tail0.
      exists tail. split; [exact Htail|]. unfold EIP4844Fields.
      rewrite <- app_nil_fields. eauto 16.
Qed.

End SignatureArgument.

(** ** The encoders at work

    The reference implementation of the imported functions runs the
    encoders on concrete records. *)

#[local] Existing Instance Reference.collaborators.

(** The unsigned EIP-155 example encodes to the signing data the
    proposal gives. *)
Example eip155_signing_data :
  serializeTransaction eip155Example None =
  Ok "0xec098504a817c800825208943535353535353535353535353535353535353535880de0b6b3a764000080018080".
Proof. vm_compute. reflexivity. Qed.

(** Signed with [v = 27] on chain 1, the seventh field is [0x25],
    that is 37. *)
Example eip155_signed :
  serializeTransaction eip155Example
    (Some {| r := Some "0x0a"; s := Some "0x0b"; v := Some 27;
             yParity := None |}) =
  Ok "0xec098504a817c800825208943535353535353535353535353535353535353535880de0b6b3a764000080250a0b".
Proof. vm_compute. reflexivity. Qed.

(** A recovery value of 29 without a chain id is rejected. *)
Example invalid_v_29 :
  serializeTransaction futureType (Some signature29) =
  Throw (InvalidLegacyVError (Some 29)).
Proof. vm_compute. reflexivity. Qed.

(** A record with a signature of its own is serialized signed, and
    unsigned when an explicit signature object without [r] is given. *)
Example selfSigned_alone :
  toYParitySignatureArray selfSigned None =
  Ok [RHex "0x01"; RHex "0xaa"; RHex "0xbb"].
Proof. vm_compute. reflexivity. Qed.

Example selfSigned_overridden :
  serializeTransaction selfSigned (Some signatureWithoutR) =
  Ok "0x02e80107843b9aca008506fc23ac008252089435353535353535353535353535353535353535350180c0".
Proof. vm_compute. reflexivity. Qed.

Example selfSigned_signed :
  serializeTransaction selfSigned None =
  Ok "0x02ed0107843b9aca008506fc23ac008252089435353535353535353535353535353535353535350180c00181aa81bb".
Proof. vm_compute. reflexivity. Qed.

(** A zero nonce and an absent nonce give the same bytes. *)
Example zero_nonce_bytes :
  serializeTransaction zeroNonce None = serializeTransaction absentNonce None.
Proof. vm_compute. reflexivity. Qed.

(** ** Instances of the theorems *)

Lemma legacy_recovery_value_witness :
  v {| r := Some "0x0a"; s := Some "0x0b"; v := Some 27; yParity := None |}
    = Some 27 /\
  LegacyRecovery (chainId eip155Example) 27 37.
Proof.
  split; [reflexivity|].
  apply (proj1 (legacy_recovery_value eip155Example
                  {| r := Some "0x0a"; s := Some "0x0b"; v := Some 27;
                     yParity := None |} 27 eq_refl)).
  reflexivity.
Defined.

(** C2 as stated fails: for a recovery value of 37, whose offset from
    35 is even, the claim gives the placeholder and the encoder gives
    hex 1. *)
Lemma signature_tail_claim_fails :
  toYParitySignatureArray emptyTransaction (Some signature37)
    = Ok [RHex "0x01"; RHex "0x01"; RHex "0x02"] /\
  claimedTail "0x01" "0x02" None 37
    = Ok [RHex "0x"; RHex "0x01"; RHex "0x02"] /\
  toYParitySignatureArray emptyTransaction (Some signature37)
    <> claimedTail "0x01" "0x02" None 37.
Proof.
  split; [vm_compute; reflexivity|].
  split; [vm_compute; reflexivity|].
  vm_compute. discriminate.
Qed.

(** C3 as stated fails: the conditions of the claim hold for a legacy
    record whose gas price is out of range and a recovery value of 29,
    but validation comes first and its error is the one raised. *)
Lemma invalid_legacy_v_claim_fails :
  invalidLegacyVConditions overpriced (Some signature29) 29 /\
  serializeTransaction overpriced (Some signature29)
    = Throw (External "legacy: FeeCapTooHighError") /\
  ~ (serializeTransaction overpriced (Some signature29)
       = Throw (InvalidLegacyVError (Some 29)) <->
     invalidLegacyVConditions overpriced (Some signature29) 29).
Proof.
  assert (Hc : invalidLegacyVConditions overpriced (Some signature29) 29).
  { exists "legacy", signature29.
    split; [reflexivity|].
    split; [unfold legacyRoute; repeat split; discriminate|].
    split; [reflexivity|]. split; [reflexivity|].
    split; [left; reflexivity|]. lia. }
  assert (Hr : serializeTransaction overpriced (Some signature29)
               = Throw (External "legacy: FeeCapTooHighError"))
    by (vm_compute; reflexivity).
  split; [exact Hc|]. split; [exact Hr|].
  intros [_ H]. specialize (H Hc). rewrite Hr in H. discriminate.
Qed.

Lemma invalid_legacy_v_raised_witness :
  unsignedChainId futureType /\
  (serializeTransaction futureType (Some signature29)
     = Throw (InvalidLegacyVError (Some 29)) <->
   assertTransactionLegacy futureType = Returned tt /\
   (exists base, LegacyBase futureType base) /\
   invalidLegacyVConditions futureType (Some signature29) 29).
Proof.
  assert (H : unsignedChainId futureType)
    by (unfold unsignedChainId; simpl; lia).
  split; [exact H|].
  apply (proj1 (invalid_legacy_v_raised futureType (Some signature29) 29 H)).
Defined.

Lemma zero_is_absent_witness :
  SameUpToZero zeroNonce absentNonce /\
  serializedTransactionLegacy zeroNonce
    = serializedTransactionLegacy absentNonce.
Proof.
  assert (H : SameUpToZero zeroNonce absentNonce).
  { constructor; try reflexivity;
      first [left; reflexivity | right; split; reflexivity]. }
  split; [exact H|].
  apply (proj1 (proj1 (zero_is_absent zeroNonce absentNonce None H))).
Defined.

Lemma explicit_signature_replaces_record_witness :
  r signatureWithoutR = None /\
  toYParitySignatureArray selfSigned (Some signatureWithoutR) = Ok [].
Proof.
  split; [reflexivity|].
  apply (proj1 (explicit_signature_replaces_record selfSigned
                  signatureWithoutR eq_refl)).
Defined.

Lemma dispatch_defaults_to_legacy_witness :
  getTransactionType futureType = Returned "eip7702" /\
  serializeTransaction futureType None
    = serializeTransactionLegacy futureType None.
Proof.
  assert (H : getTransactionType futureType = Returned "eip7702")
    by reflexivity.
  split; [exact H|].
  apply (proj1 (dispatch_defaults_to_legacy futureType None "eip7702" H)).
  unfold legacyRoute. repeat split; discriminate.
Defined.

Lemma legacyV_inferred_range_idempotent_witness :
  (0 <= 0 /\ v (withV (Some 36) signature27) = Some 36) /\
  (28 = 27 \/ 28 = 28 \/ 37 <= 28) /\
  legacyV 0 (withV (Some 28) (withV (Some 36) signature27)) = Ok 28.
Proof.
  split; [split; [lia | reflexivity]|].
  apply (legacyV_inferred_range_idempotent 0 (withV (Some 36) signature27)
           36 28); [lia | reflexivity | reflexivity].
Defined.

Lemma eip155_explicit_matches_inferred_witness :
  (chainId eip155Example = Some 1 /\ 0 < 1 /\ v signature27 = Some 27) /\
  legacyV (nullishOpt (chainId eip155Example) 0) signature27
    = Ok (1 * 2 + 35 + (27 - 27)).
Proof.
  split; [split; [reflexivity | split; [lia | reflexivity]]|].
  apply (proj1 (eip155_explicit_matches_inferred eip155Example signature27
                  1 27 eq_refl ltac:(lia) eq_refl (or_introl eq_refl))).
Defined.

Lemma sidecar_ignored_without_blobs_witness :
  blobs blobRecord = None /\
  serializeTransactionEIP4844
    (withSidecar (Some ["0xc0"]) (Some ["0xf0"]) blobRecord) None
  = serializeTransactionEIP4844 blobRecord None.
Proof.
  assert (H : assertTransactionEIP4844
                (withSidecar (Some ["0xc0"]) (Some ["0xf0"]) blobRecord)
              = assertTransactionEIP4844 blobRecord) by reflexivity.
  split; [reflexivity|].
  apply (sidecar_ignored_without_blobs blobRecord _ _ None eq_refl H).
Defined.

Lemma legacy_zero_chain_id_is_absent_witness :
  (chainId (withChainId (Some 0) futureType) = Some 0 /\ 0 <= 0) /\
  serializeTransactionLegacy (withChainId (Some 0) futureType) None
  = serializeTransactionLegacy
      (withChainId None (withChainId (Some 0) futureType)) None.
Proof.
  assert (H : assertTransactionLegacy
                (withChainId None (withChainId (Some 0) futureType))
              = assertTransactionLegacy (withChainId (Some 0) futureType))
    by reflexivity.
  split; [split; [reflexivity | lia]|].
  apply (proj1 (legacy_zero_chain_id_is_absent
                  (withChainId (Some 0) futureType) 0 None
                  eq_refl ltac:(lia) H)).
Defined.
